(** * armhf_cross_compile: a shallow embedding of the scaffold's control logic

    The repository is a cross-compilation template: a Makefile that maps a
    build goal and a build mode to a compiler command and an artifact name,
    a header-only logger, a demo program with an interruptible loop, a
    deploy script and a build test script.  Each part is embedded below as
    executable Rocq definitions that follow the source text, and the
    properties of the specification are stated over these definitions. *)

From Stdlib Require Import ZArith List String Ascii Bool Lia Permutation.
Import ListNotations.

Local Open Scope list_scope.
Local Open Scope string_scope.
Local Open Scope Z_scope.

(** ** Text helpers shared by all parts *)

(** The newline character, [\n] in the sources. *)
Definition LF : ascii := ascii_of_nat 10.
Definition newline : string := String LF "".

(** The escape character, [\033] in the scripts' colour codes. *)
Definition ESC : ascii := ascii_of_nat 27.

Fixpoint contains (c : ascii) (s : string) : bool :=
  match s with
  | EmptyString => false
  | String a rest => Ascii.eqb a c || contains c rest
  end.

Fixpoint count_char (c : ascii) (s : string) : nat :=
  match s with
  | EmptyString => O
  | String a rest => ((if Ascii.eqb a c then 1 else 0) + count_char c rest)%nat
  end.

(** Decimal conversion of [printf]'s [%d] and of the numeric fields of
    [strftime].  [utoa] emits the digits of a non-negative number, least
    significant first, in front of an accumulator; the fuel bounds the number
    of divisions by ten and is chosen by [fmt_d] from the size of the
    number. *)
Definition digit_char (d : Z) : ascii := ascii_of_nat (48 + Z.to_nat d).
Arguments digit_char : simpl never.

Fixpoint utoa (fuel : nat) (n : Z) (acc : string) : string :=
  let acc' := String (digit_char (n mod 10)) acc in
  match fuel with
  | O => acc'
  | S fuel' => if n <? 10 then acc' else utoa fuel' (n / 10) acc'
  end.

Definition fmt_u (n : Z) : string := utoa (Z.to_nat (Z.log2 n)) n "".

Definition fmt_d (n : Z) : string :=
  if n <? 0 then "-" ++ fmt_u (- n) else fmt_u n.

(** A numeric [strftime] field of width two, padded with a zero. *)
Definition fmt_02d (n : Z) : string :=
  let s := fmt_d n in
  if (String.length s <? 2)%nat then "0" ++ s else s.

Definition is_digit (c : ascii) : bool :=
  ((48 <=? nat_of_ascii c) && (nat_of_ascii c <=? 57))%nat.

(** ** Observable effects

    Every part of the scaffold is sequential; its behaviour is the list of
    effects it performs, in order. *)

Inductive FILE : Type :=
| stdout
| stderr
| stream (id : nat).

Definition FILE_eqb (f g : FILE) : bool :=
  match f, g with
  | stdout, stdout => true
  | stderr, stderr => true
  | stream i, stream j => Nat.eqb i j
  | _, _ => false
  end.

Inductive event : Type :=
| EvTime                              (* time(nullptr) and localtime *)
| EvPrint (f : FILE) (text : string)  (* fprintf / vfprintf on a stream *)
| EvFlush (f : FILE)                  (* fflush *)
| EvReadFlag (running : bool)         (* one read of g_running *)
| EvSleep (usec : Z).                 (* usleep *)

(** The bytes a trace writes to one stream. *)
Fixpoint written (f : FILE) (trace : list event) : string :=
  match trace with
  | [] => ""
  | EvPrint g text :: rest =>
      if FILE_eqb g f then text ++ written f rest else written f rest
  | _ :: rest => written f rest
  end.

(** ** include/logger.h *)

Module Logger.

(** [enum class LogLevel]: the underlying type is [int], and a variable of
    the type can hold any [int] value, so a level is an integer and the six
    enumerators are constants. *)
Definition LogLevel : Type := Z.

Definition LVL_TRACE : LogLevel := 0.
Definition LVL_DEBUG : LogLevel := 1.
Definition LVL_INFO  : LogLevel := 2.
Definition LVL_WARN  : LogLevel := 3.
Definition LVL_ERROR : LogLevel := 4.
Definition LVL_FATAL : LogLevel := 5.

Definition all_levels : list LogLevel :=
  [LVL_TRACE; LVL_DEBUG; LVL_INFO; LVL_WARN; LVL_ERROR; LVL_FATAL].

Definition is_defined_level (level : LogLevel) : bool :=
  (LVL_TRACE <=? level) && (level <=? LVL_FATAL).

Record Logger : Type := mkLogger {
  minLevel_ : LogLevel;
  output_ : FILE
}.

(** The private constructor. *)
Definition Logger_init : Logger :=
  {| minLevel_ := LVL_DEBUG; output_ := stdout |}.

Definition setLevel (self : Logger) (level : LogLevel) : Logger :=
  {| minLevel_ := level; output_ := output_ self |}.

Definition setOutput (self : Logger) (output : FILE) : Logger :=
  {| minLevel_ := minLevel_ self; output_ := output |}.

Definition levelToString (level : LogLevel) : string :=
  match level with
  | 0 => "TRACE"
  | 1 => "DEBUG"
  | 2 => "INFO "
  | 3 => "WARN "
  | 4 => "ERROR"
  | 5 => "FATAL"
  | _ => "?????"
  end.

(** [struct tm], the fields [strftime] reads for the logger's format. *)
Record tm : Type := mkTm {
  tm_year : Z;  (* years since 1900 *)
  tm_mon : Z;   (* 0 .. 11 *)
  tm_mday : Z;  (* 1 .. 31 *)
  tm_hour : Z;  (* 0 .. 23 *)
  tm_min : Z;   (* 0 .. 59 *)
  tm_sec : Z    (* 0 .. 60 *)
}.

(** A broken-down time of a four-digit year. *)
Definition valid_tm (t : tm) : Prop :=
  1000 <= tm_year t + 1900 <= 9999 /\
  0 <= tm_mon t <= 11 /\
  1 <= tm_mday t <= 31 /\
  0 <= tm_hour t <= 23 /\
  0 <= tm_min t <= 59 /\
  0 <= tm_sec t <= 60.

(** [strftime(buffer, 32, "%Y-%m-%d %H:%M:%S", tm_info)].  The text has 19
    characters for a four-digit year and fits the 32-byte buffer. *)
Definition getTimestamp (now : tm) : string :=
  fmt_d (tm_year now + 1900) ++ "-" ++ fmt_02d (tm_mon now + 1) ++ "-" ++
  fmt_02d (tm_mday now) ++ " " ++ fmt_02d (tm_hour now) ++ ":" ++
  fmt_02d (tm_min now) ++ ":" ++ fmt_02d (tm_sec now).

(** [strrchr s c] for a character other than NUL: the tail of [s] that
    starts at the last occurrence of [c]. *)
Fixpoint strrchr (s : string) (c : ascii) : option string :=
  match s with
  | EmptyString => None
  | String a rest =>
      match strrchr rest c with
      | Some tail => Some tail
      | None => if Ascii.eqb a c then Some s else None
      end
  end.

Definition getFilename (path : string) : string :=
  match strrchr path "/" with
  | Some (String _ after) => after
  | _ =>
      match strrchr path "\" with
      | Some (String _ after) => after
      | _ => path
      end
  end.

(** [Logger::log].  [now] is the local time the call reads, [msg] the text
    [vfprintf] produces from the format and its arguments. *)
Definition log (self : Logger) (now : tm) (level : LogLevel)
    (func file : string) (line : Z) (msg : string) : list event :=
  if level <? minLevel_ self then []
  else
    let timestamp := getTimestamp now in
    let filename := getFilename file in
    [ EvTime;
      EvPrint (output_ self)
        (timestamp ++ " " ++ levelToString level ++ " [" ++ func ++ "] [" ++
         filename ++ ":" ++ fmt_d line ++ "] : ");
      EvPrint (output_ self) msg;
      EvPrint (output_ self) newline;
      EvFlush (output_ self) ].

(** The record the header comment documents:
    [YYYY-MM-DD HH:MM:SS LEVEL [function] [file:line] : message]. *)
Definition record_line (timestamp label func filename : string) (line : Z)
    (msg : string) : string :=
  timestamp ++ " " ++ label ++ " [" ++ func ++ "] [" ++ filename ++ ":" ++
  fmt_d line ++ "] : " ++ msg.

(** The shape [YYYY-MM-DD HH:MM:SS]. *)
Definition is_timestamp (s : string) : bool :=
  match s with
  | String y1 (String y2 (String y3 (String y4 (String d1
    (String m1 (String m2 (String d2
    (String a1 (String a2 (String sp
    (String h1 (String h2 (String c1
    (String n1 (String n2 (String c2
    (String s1 (String s2 EmptyString)))))))))))))))))) =>
      is_digit y1 && is_digit y2 && is_digit y3 && is_digit y4 &&
      Ascii.eqb d1 "-" && is_digit m1 && is_digit m2 &&
      Ascii.eqb d2 "-" && is_digit a1 && is_digit a2 &&
      Ascii.eqb sp " " && is_digit h1 && is_digit h2 &&
      Ascii.eqb c1 ":" && is_digit n1 && is_digit n2 &&
      Ascii.eqb c2 ":" && is_digit s1 && is_digit s2
  | _ => false
  end.

(** Names of the severities: the enumerators without their prefix. *)
Definition severity_name (level : LogLevel) : string :=
  match level with
  | 0 => "TRACE"
  | 1 => "DEBUG"
  | 2 => "INFO"
  | 3 => "WARN"
  | 4 => "ERROR"
  | 5 => "FATAL"
  | _ => ""
  end.

Fixpoint spaces (n : nat) : string :=
  match n with
  | O => ""
  | S n' => String " " (spaces n')
  end.

(** Padding on the left (text flush right) and on the right (text flush
    left) to a width. *)
Definition pad_left (width : nat) (s : string) : string :=
  spaces (width - String.length s) ++ s.

Definition pad_right (width : nat) (s : string) : string :=
  s ++ spaces (width - String.length s).

End Logger.

(** ** include/config.h *)

Module Config.

(** [LOOP_DELAY_US], 500 ms in microseconds. *)
Definition LOOP_DELAY_US : Z := 500 * 1000.

End Config.

(** ** src/main.cpp: the main loop *)

Module MainProgram.

Import Logger.

Definition INT_MAX : Z := 2147483647.

(** [__FILE__] for the only translation unit, as the Makefile's
    [$(wildcard src/*.cpp)] passes it to the compiler. *)
Definition FILE_NAME : string := "src/main.cpp".

Section WithBuild.

(** [DEBUG] is [true] when the unit is compiled with [-DDEBUG]. *)
Variable DEBUG : bool.

(** The local time read by the log call on a source line when the loop
    counter has a given value (each such call happens once). *)
Variable clock : Z -> Z -> tm.

(** The process-wide logger instance. *)
Variable logger : Logger.

(** The [LOG_*] macros inside [mainLoop]: [__func__], [__FILE__], [__LINE__]
    are those of the call site. *)
Definition LOG (level : LogLevel) (line counter : Z) (msg : string)
  : list event :=
  log logger (clock line counter) level "mainLoop" FILE_NAME line msg.

(** One pass through the body of [while (g_running)]: the counter message,
    the increment, the periodic trace of debug builds, and the sleep. *)
Definition loop_body (counter : Z) : list event * Z :=
  let shown :=
    if DEBUG then LOG LVL_DEBUG 173 counter ("Counter: " ++ fmt_d counter)
    else if Z.rem counter 10 =? 0 then
      LOG LVL_INFO 176 counter
        ("Counter: " ++ fmt_d counter ++
         " (release mode - showing every 10th)")
    else [] in
  let counter' := counter + 1 in
  let traced :=
    if DEBUG then
      if Z.rem counter' 10 =? 0 then
        LOG LVL_TRACE 184 counter'
          ("Periodic trace at counter=" ++ fmt_d counter')
      else []
    else [] in
  ((shown ++ traced ++ [EvSleep Config.LOOP_DELAY_US])%list, counter').

(** The [while] loop.  [signalHandler] runs between the loop's statements
    and clears [g_running]; the loop sees it only through the value a read
    of the flag returns.  [observed] lists the values successive reads
    return; the loop has no result when the list is exhausted before a read
    returns [false], or when [counter++] would overflow [int]. *)
Fixpoint loop (observed : list bool) (counter : Z)
  : option (list event * Z) :=
  match observed with
  | [] => None
  | running :: later =>
      if running then
        if INT_MAX <=? counter then None
        else
          let '(body, counter') := loop_body counter in
          match loop later counter' with
          | Some (rest, final) =>
              Some ((EvReadFlag true :: body ++ rest)%list, final)
          | None => None
          end
      else Some ([EvReadFlag false], counter)
  end.

Definition mainLoop (observed : list bool) : option (list event * Z) :=
  let started :=
    LOG LVL_INFO 167 0 "Starting main loop (Ctrl+C to exit)..." in
  match loop observed 0 with
  | Some (run, counter) =>
      Some ((started ++ run ++
             LOG LVL_INFO 191 counter
               ("Main loop exited after " ++ fmt_d counter ++ " iterations"))%list,
            counter)
  | None => None
  end.

End WithBuild.

(** The logger as [main] configures it before the loop. *)
Definition configured_logger (DEBUG : bool) : Logger :=
  if DEBUG then setLevel Logger_init LVL_DEBUG
  else setLevel Logger_init LVL_INFO.

(** The events of one iteration, cut out of a trace: what follows each read
    of the flag that returned [true], up to the next read. *)
Fixpoint iterations_from (current : option (list event)) (trace : list event)
  : list (list event) :=
  match trace with
  | [] => match current with Some it => [it] | None => [] end
  | EvReadFlag running :: rest =>
      let closed := match current with Some it => [it] | None => [] end in
      (closed ++ iterations_from (if running then Some [] else None) rest)%list
  | e :: rest =>
      match current with
      | Some it => iterations_from (Some (it ++ [e])%list) rest
      | None => iterations_from None rest
      end
  end.

Definition iterations (trace : list event) : list (list event) :=
  iterations_from None trace.

Definition is_sleep (e : event) : bool :=
  match e with EvSleep _ => true | _ => false end.

Definition is_print (e : event) : bool :=
  match e with EvPrint _ _ => true | _ => false end.

(** No print of an iteration comes before a sleep of that iteration. *)
Fixpoint sleeps_then_logs (iteration : list event) : bool :=
  match iteration with
  | [] => true
  | e :: rest =>
      if is_sleep e then true
      else negb (is_print e) && sleeps_then_logs rest
  end.

(** The counters of [n] iterations that start at [from]. *)
Fixpoint counters (from : Z) (n : nat) : list Z :=
  match n with
  | O => []
  | S n' => from :: counters (from + 1) n'
  end.

(** The loop in closed form, iteration by iteration: the counter message
    of an iteration (every iteration in a debug build, when the counter is
    a multiple of ten otherwise), and the effects of an iteration, the read
    of the flag first, the sleep last. *)
Definition counter_message (DEBUG : bool) (clock : Z -> Z -> tm) (counter : Z)
  : list event :=
  if DEBUG then
    log (configured_logger true) (clock 173 counter) LVL_DEBUG "mainLoop"
      FILE_NAME 173 ("Counter: " ++ fmt_d counter)
  else if counter mod 10 =? 0 then
    log (configured_logger false) (clock 176 counter) LVL_INFO "mainLoop"
      FILE_NAME 176
      ("Counter: " ++ fmt_d counter ++ " (release mode - showing every 10th)")
  else [].

Definition iteration (DEBUG : bool) (clock : Z -> Z -> tm) (counter : Z)
  : list event :=
  (EvReadFlag true :: counter_message DEBUG clock counter ++
   [EvSleep Config.LOOP_DELAY_US])%list.

(** The closing report of the loop. *)
Definition report (DEBUG : bool) (clock : Z -> Z -> tm) (counter : Z)
  : list event :=
  log (configured_logger DEBUG) (clock 191 counter) LVL_INFO "mainLoop"
    FILE_NAME 191 ("Main loop exited after " ++ fmt_d counter ++ " iterations").

End MainProgram.

(** ** Makefile *)

Module Makefile.

(** What the invoker controls: variables given on the command line or in the
    environment, and the files [$(wildcard ...)] finds. A variable that holds
    several words is a list of words. *)
Record settings : Type := mkSettings {
  BUILD_MODE_given : option string;  (* BUILD_MODE, when defined outside *)
  CROSS_ARCH : string;
  CPP : list string;
  LDFLAGS_given : list string;
  HOST_LDFLAGS : list string;
  LIB_NAME : list string;
  LDLIBS : list string;
  PROJECT_SOURCES : list string;
  PROJECT_HEADERS : list string
}.

Definition PROJECT_NAME : string := "firmware".

(** [BUILD_MODE ?= debug] *)
Definition BUILD_MODE (s : settings) : string :=
  match BUILD_MODE_given s with
  | Some mode => mode
  | None => "debug"
  end.

Definition TARGET_BINARY : string := PROJECT_NAME ++ ".bin".
Definition HOST_BINARY : string := "program.bin".
Definition CROSS_BINARY (s : settings) : string :=
  PROJECT_NAME ++ "_" ++ CROSS_ARCH s ++ ".bin".

Definition INCLUDES : list string := ["-Iinclude"].
Definition LDFLAGS (s : settings) : list string :=
  (LDFLAGS_given s ++ ["-Llib"])%list.
Definition COMMON_FLAGS : list string :=
  ["-Wall"; "-Wextra"; "-Wpedantic"; "-std=c++17"].
Definition DEBUG_FLAGS : list string := ["-g3"; "-O0"; "-DDEBUG"].
Definition RELEASE_FLAGS : list string := ["-O2"; "-DNDEBUG"; "-s"].

(** [ifeq ($(BUILD_MODE),release)] *)
Definition CFLAGS (mode : string) : list string :=
  if String.eqb mode "release" then (COMMON_FLAGS ++ RELEASE_FLAGS)%list
  else (COMMON_FLAGS ++ DEBUG_FLAGS)%list.


Definition TARGET_CPP : string := "arm-linux-gnueabihf-g++".
Definition HOST_CPP : string := "g++".

(** The goals that build something, and the cleaning goals. *)
Inductive goal : Type :=
| all | debug | release
| host | host_debug | host_release | host_compile
| cross_compile | cross_debug | cross_release
| clean_bin | clean | clean_all.

(** One compiler run: the words of the command line and the file it
    produces. *)
Record build : Type := mkBuild {
  command : list string;
  artifact : string;
  flags : list string
}.

(** The recipe of [$(TARGET_BINARY)]. *)
Definition target_build (s : settings) (mode : string) : build :=
  {| command :=
       ([TARGET_CPP] ++ CFLAGS mode ++ ["-DTARGET"] ++ LDFLAGS s ++
        ["-o"; TARGET_BINARY] ++ PROJECT_SOURCES s ++ INCLUDES ++
        LIB_NAME s ++ LDLIBS s)%list;
     artifact := TARGET_BINARY;
     flags := CFLAGS mode |}.

(** The recipe of [$(HOST_BINARY)]. *)
Definition host_build (s : settings) (mode : string) : build :=
  {| command :=
       ([HOST_CPP] ++ CFLAGS mode ++ ["-DHOST"] ++ HOST_LDFLAGS s ++
        ["-o"; HOST_BINARY] ++ PROJECT_SOURCES s ++ INCLUDES ++
        LIB_NAME s ++ LDLIBS s)%list;
     artifact := HOST_BINARY;
     flags := CFLAGS mode |}.

(** The recipe of [$(CROSS_BINARY)]. *)
Definition cross_build (s : settings) (mode : string) : build :=
  {| command :=
       (CPP s ++ CFLAGS mode ++ [("-D" ++ CROSS_ARCH s)%string] ++ LDFLAGS s ++
        ["-o"; CROSS_BINARY s] ++ PROJECT_SOURCES s ++ INCLUDES ++
        LIB_NAME s ++ LDLIBS s)%list;
     artifact := CROSS_BINARY s;
     flags := CFLAGS mode |}.

(** The compiler run a goal leads to.  [debug], [release], [host-debug],
    [host-release], [cross-debug] and [cross-release] re-invoke make with
    [BUILD_MODE] set on the command line; the other building goals use the
    mode in force. *)
Definition resolve (s : settings) (g : goal) : option build :=
  match g with
  | all => Some (target_build s (BUILD_MODE s))
  | debug => Some (target_build s "debug")
  | release => Some (target_build s "release")
  | host | host_debug => Some (host_build s "debug")
  | host_release => Some (host_build s "release")
  | host_compile => Some (host_build s (BUILD_MODE s))
  | cross_compile => Some (cross_build s (BUILD_MODE s))
  | cross_debug => Some (cross_build s "debug")
  | cross_release => Some (cross_build s "release")
  | clean_bin | clean | clean_all => None
  end.

(** The build variants of the data model. *)
Inductive architecture : Type :=
| arm64 | armhf | armel | riscv64 | amd64 | i386.

Inductive profile : Type := profile_debug | profile_release.

Definition arch_token (a : architecture) : string :=
  match a with
  | arm64 => "arm64"
  | armhf => "armhf"
  | armel => "armel"
  | riscv64 => "riscv64"
  | amd64 => "amd64"
  | i386 => "i386"
  end.

Definition profile_token (p : profile) : string :=
  match p with
  | profile_debug => "debug"
  | profile_release => "release"
  end.

(** The compilers the README's table of supported architectures names. *)
Definition toolchain (a : architecture) : string :=
  match a with
  | arm64 => "aarch64-linux-gnu-g++"
  | armhf => "arm-linux-gnueabihf-g++"
  | armel => "arm-linux-gnueabi-g++"
  | riscv64 => "riscv64-linux-gnu-g++"
  | amd64 => "x86_64-linux-gnu-g++"
  | i386 => "i686-linux-gnu-g++"
  end.

(** [make cross_compile] for a variant, as the help text shows it:
    [CROSS_ARCH=<arch> CPP=<compiler>] and the build mode. *)
Definition cross_settings (base : settings) (a : architecture) (p : profile)
  : settings :=
  {| BUILD_MODE_given := Some (profile_token p);
     CROSS_ARCH := arch_token a;
     CPP := [toolchain a];
     LDFLAGS_given := LDFLAGS_given base;
     HOST_LDFLAGS := HOST_LDFLAGS base;
     LIB_NAME := LIB_NAME base;
     LDLIBS := LDLIBS base;
     PROJECT_SOURCES := PROJECT_SOURCES base;
     PROJECT_HEADERS := PROJECT_HEADERS base |}.

Definition with_mode (base : settings) (p : profile) : settings :=
  {| BUILD_MODE_given := Some (profile_token p);
     CROSS_ARCH := CROSS_ARCH base;
     CPP := CPP base;
     LDFLAGS_given := LDFLAGS_given base;
     HOST_LDFLAGS := HOST_LDFLAGS base;
     LIB_NAME := LIB_NAME base;
     LDLIBS := LDLIBS base;
     PROJECT_SOURCES := PROJECT_SOURCES base;
     PROJECT_HEADERS := PROJECT_HEADERS base |}.

(** The flag bundle the README's table of build targets gives for a
    profile. *)
Definition documented_bundle (p : profile) : list string :=
  match p with
  | profile_debug => ["-g3"; "-O0"; "-DDEBUG"]
  | profile_release => ["-O2"; "-DNDEBUG"; "-s"]
  end.

(** A flag that asks for debug information: [-g] and its variants. *)
Definition is_debug_info_flag (word : string) : bool :=
  String.prefix "-g" word.

(** A machine that runs make: the programs on its [PATH] and the outcome of
    a compiler command that can be started. *)
Record machine : Type := mkMachine {
  installed : string -> bool;
  compiles : list string -> bool
}.

(** Whether [make <goal>] succeeds when the goal's file has to be rebuilt
    (the test script cleans before it builds): make itself has to be there,
    the recipe's command has to start and has to succeed.  The cleaning
    goals only remove files. *)
Definition make_succeeds (m : machine) (s : settings) (g : goal) : bool :=
  installed m "make" &&
  match resolve s g with
  | Some b =>
      match command b with
      | program :: _ => installed m program && compiles m (command b)
      | [] => false
      end
  | None => true
  end.

End Makefile.

(** ** scripts/test_build.sh *)

Module TestBuild.

(** The invoking machine as the script sees it: whether [command -v] finds a
    program, and whether a [make] invocation (environment assignments and
    goal) exits with status 0. *)
Record host : Type := mkHost {
  command_v : string -> bool;
  make : list (string * string) -> Makefile.goal -> bool
}.

Inductive action : Type :=
| Echo (line : string)
| CommandV (program : string)
| Make (assignments : list (string * string)) (g : Makefile.goal).

Record state : Type := mkState {
  PASSED : Z;
  FAILED : Z;
  FAILED_ARCHS : list string;
  trace : list action
}.

(** The colour codes as [echo -e] prints them. *)
Definition RED : string := String ESC "[0;31m".
Definition GREEN : string := String ESC "[0;32m".
Definition YELLOW : string := String ESC "[1;33m".
Definition NC : string := String ESC "[0m".

Definition act (a : action) (st : state) : state :=
  {| PASSED := PASSED st; FAILED := FAILED st;
     FAILED_ARCHS := FAILED_ARCHS st;
     trace := (trace st ++ [a])%list |}.

Definition echo (line : string) : state -> state := act (Echo line).

Definition log_info (msg : string) : state -> state :=
  echo (GREEN ++ "[INFO]" ++ NC ++ " " ++ msg).
Definition log_warn (msg : string) : state -> state :=
  echo (YELLOW ++ "[WARN]" ++ NC ++ " " ++ msg).
Definition log_error (msg : string) : state -> state :=
  echo (RED ++ "[FAIL]" ++ NC ++ " " ++ msg).
Definition log_pass (msg : string) : state -> state :=
  echo (GREEN ++ "[PASS]" ++ NC ++ " " ++ msg).

(** The two branches every build test ends in. *)
Definition passed (label : string) (st : state) : state :=
  let st := log_pass label st in
  {| PASSED := PASSED st + 1; FAILED := FAILED st;
     FAILED_ARCHS := FAILED_ARCHS st; trace := trace st |}.

Definition failed (label name : string) (st : state) : state :=
  let st := log_error label st in
  {| PASSED := PASSED st; FAILED := FAILED st + 1;
     FAILED_ARCHS := (FAILED_ARCHS st ++ [name])%list; trace := trace st |}.

(** [declare -A ARCH_COMPILERS] *)
Definition ARCH_COMPILERS : list (string * string) :=
  [ ("arm64", "aarch64-linux-gnu-g++");
    ("armel", "arm-linux-gnueabi-g++");
    ("riscv64", "riscv64-linux-gnu-g++");
    ("amd64", "x86_64-linux-gnu-g++");
    ("i386", "i686-linux-gnu-g++") ].

(** [${ARCH_COMPILERS[$arch]}]: the value of a key, empty when unset. *)
Fixpoint lookup (table : list (string * string)) (key : string) : string :=
  match table with
  | [] => ""
  | (k, v) :: rest => if String.eqb k key then v else lookup rest key
  end.

Definition keys : list string := map fst ARCH_COMPILERS.

Section WithHost.

Variable h : host.

(** The host and ARM HF tests (lines 34-54). *)
Definition test_host (st : state) : state :=
  let st := log_info "Testing host compilation..." st in
  let st := act (Make [] Makefile.host_compile) st in
  if make h [] Makefile.host_compile then passed "Host compilation" st
  else failed "Host compilation" "host" st.

Definition test_armhf (st : state) : state :=
  let st := log_info "Testing ARM HF compilation..." st in
  let st := act (Make [] Makefile.all) st in
  if make h [] Makefile.all then passed "ARM HF compilation" st
  else failed "ARM HF compilation" "armhf" st.

(** The body of [for arch in "${!ARCH_COMPILERS[@]}"]. *)
Definition test_arch (st : state) (arch : string) : state :=
  let compiler := lookup ARCH_COMPILERS arch in
  let st := act (CommandV compiler) st in
  if negb (command_v h compiler) then
    log_warn ("Skipping " ++ arch ++ " - " ++ compiler ++ " not found") st
  else
    let st := log_info ("Testing " ++ arch ++ " compilation...") st in
    let assignments := [("CROSS_ARCH", arch); ("CPP", compiler)] in
    let st := act (Make assignments Makefile.cross_compile) st in
    if make h assignments Makefile.cross_compile then
      passed (arch ++ " compilation") st
    else failed (arch ++ " compilation") arch st.

(** The summary (lines 85-101). *)
Definition summary (st : state) : state :=
  let st := echo "" st in
  let st := echo "=============================================" st in
  let st := echo "  Build Test Summary" st in
  let st := echo "=============================================" st in
  let st := echo ("  " ++ GREEN ++ "Passed:" ++ NC ++ " " ++ fmt_d (PASSED st)) st in
  let st := echo ("  " ++ RED ++ "Failed:" ++ NC ++ " " ++ fmt_d (FAILED st)) st in
  let st :=
    if FAILED st >? 0 then
      let st := echo "" st in
      let st := echo "  Failed architectures:" st in
      fold_left (fun st arch => echo ("    - " ++ arch) st) (FAILED_ARCHS st) st
    else st in
  echo "=============================================" st.

Definition initial : state :=
  {| PASSED := 0; FAILED := 0; FAILED_ARCHS := []; trace := [] |}.

(** The whole script.  [order] is the order in which bash enumerates the
    keys of the associative array; the result is the final state and the
    exit status, that of [[ $FAILED -eq 0 ]]. *)
Definition test_build (order : list string) : state * Z :=
  let st := initial in
  let st := echo "=============================================" st in
  let st := echo "  Cross-Compilation Build Test" st in
  let st := echo "=============================================" st in
  let st := echo "" st in
  let st := log_info "Cleaning previous builds..." st in
  let st := act (Make [] Makefile.clean) st in
  let st := test_host st in
  let st := test_armhf st in
  let st := fold_left test_arch order st in
  let st := summary st in
  let st := act (Make [] Makefile.clean) st in
  (st, if FAILED st =? 0 then 0 else 1).

(** The build the loop attempts for one key, with its outcome: none when
    the compiler is not found. *)
Definition arch_result (arch : string) : list (string * bool) :=
  let compiler := lookup ARCH_COMPILERS arch in
  if command_v h compiler then
    [(arch, make h [("CROSS_ARCH", arch); ("CPP", compiler)]
              Makefile.cross_compile)]
  else [].

(** The builds a run attempts, with their outcome: the host build, the
    ARM HF build, and the build of every listed architecture whose compiler
    is found. *)
Definition attempted (order : list string) : list (string * bool) :=
  (("host", make h [] Makefile.host_compile) ::
   ("armhf", make h [] Makefile.all) ::
   flat_map arch_result order)%list.

End WithHost.

Definition failures (results : list (string * bool)) : list string :=
  map fst (filter (fun r => negb (snd r)) results).

(** The lines of the summary that list the failed builds. *)
Definition bullet (name : string) : string := "    - " ++ name.

Definition rule : string := "=============================================".

(** The lines of the summary for given counters and failed names. *)
Definition summary_lines (passed_count failed_count : Z) (names : list string)
  : list string :=
  ([ ""; rule; "  Build Test Summary"; rule;
     ("  " ++ GREEN ++ "Passed:" ++ NC ++ " " ++ fmt_d passed_count)%string;
     ("  " ++ RED ++ "Failed:" ++ NC ++ " " ++ fmt_d failed_count)%string ] ++
   (if failed_count >? 0 then
      "" :: "  Failed architectures:" :: map bullet names
    else []) ++
   [rule])%list.

(** The warning of a skipped architecture. *)
Definition skip_warning (arch : string) : string :=
  YELLOW ++ "[WARN]" ++ NC ++ " " ++ "Skipping " ++ arch ++ " - " ++
  lookup ARCH_COMPILERS arch ++ " not found".

Definition lines_of (actions : list action) : list string :=
  flat_map (fun a => match a with Echo line => [line] | _ => [] end) actions.

Definition echoed (st : state) : list string := lines_of (trace st).

(** The [make] invocations of a run that set [CROSS_ARCH] to a name. *)
Definition builds_arch (arch : string) (a : action) : bool :=
  match a with
  | Make assignments _ =>
      existsb (fun kv => String.eqb (fst kv) "CROSS_ARCH" && String.eqb (snd kv) arch)
        assignments
  | _ => false
  end.

(** What a step adds: the counters move by the outcome of the builds it
    attempts, the trace grows by a tail. *)
Definition adds (results : list (string * bool)) (tail : list action)
    (st st' : state) : Prop :=
  PASSED st' = PASSED st + Z.of_nat (List.length (filter snd results)) /\
  FAILED st' = FAILED st + Z.of_nat (List.length (failures results)) /\
  FAILED_ARCHS st' = (FAILED_ARCHS st ++ failures results)%list /\
  trace st' = (trace st ++ tail)%list.

(** The settings [make] reads from the script's environment assignments;
    nothing else is set, and the project has its one source file. *)
Definition settings_of (assignments : list (string * string))
  : Makefile.settings :=
  {| Makefile.BUILD_MODE_given := None;
     Makefile.CROSS_ARCH := lookup assignments "CROSS_ARCH";
     Makefile.CPP :=
       match lookup assignments "CPP" with
       | EmptyString => ["cc"; "-E"]   (* make's built-in value *)
       | cpp => [cpp]
       end;
     Makefile.LDFLAGS_given := [];
     Makefile.HOST_LDFLAGS := [];
     Makefile.LIB_NAME := [];
     Makefile.LDLIBS := [];
     Makefile.PROJECT_SOURCES := ["src/main.cpp"];
     Makefile.PROJECT_HEADERS := ["include/config.h"; "include/logger.h"] |}.

(** The script's view of a machine on which make runs the Makefile. *)
Definition host_of (m : Makefile.machine) : host :=
  {| command_v := Makefile.installed m;
     make := fun assignments g =>
       Makefile.make_succeeds m (settings_of assignments) g |}.

(** A machine with make and the native compiler, and no cross compiler. *)
Definition native_only : Makefile.machine :=
  {| Makefile.installed := fun program =>
       String.eqb program "make" || String.eqb program "g++";
     Makefile.compiles := fun _ => true |}.

End TestBuild.

(** ** deploy.sh *)

Module Deploy.

(** The script runs under [set -e]: a command either lets the script go on
    or ends it with an exit status.  A computation yields the actions
    performed so far together with its outcome. *)
Inductive action : Type :=
| Echo (line : string)           (* a line on standard output *)
| Complain (line : string)       (* a line on standard error *)
| Exec (argv : list string).     (* an external command: sshpass ... *)

Inductive outcome (A : Type) : Type :=
| Go (value : A)
| Exit (status : Z).
Arguments Go {A} value.
Arguments Exit {A} status.

Definition sh (A : Type) : Type := list action * outcome A.

Definition ret {A : Type} (a : A) : sh A := ([], Go a).

Definition bind {A B : Type} (m : sh A) (k : A -> sh B) : sh B :=
  match m with
  | (done, Go a) => let '(more, o) := k a in ((done ++ more)%list, o)
  | (done, Exit status) => (done, Exit status)
  end.

Notation "x <- m ;; k" := (bind m (fun x => k))
  (at level 61, m at next level, right associativity).
Notation "m ;;; k" := (bind m (fun _ => k))
  (at level 61, right associativity).

Definition echo (line : string) : sh unit := ([Echo line], Go tt).
Definition exit {A : Type} (status : Z) : sh A := ([], Exit status).

(** The machine the script runs on and the network behind it: the regular
    files, the programs on [PATH], and the exit status of each external
    command. *)
Record world : Type := mkWorld {
  is_file : string -> bool;
  command_v : string -> bool;
  status_of : list string -> Z
}.

Definition RED : string := String ESC "[0;31m".
Definition GREEN : string := String ESC "[0;32m".
Definition YELLOW : string := String ESC "[1;33m".
Definition NC : string := String ESC "[0m".

Definition log_info (msg : string) : sh unit :=
  echo (GREEN ++ "[INFO]" ++ NC ++ " " ++ msg).
Definition log_warn (msg : string) : sh unit :=
  echo (YELLOW ++ "[WARN]" ++ NC ++ " " ++ msg).
Definition log_error (msg : string) : sh unit :=
  echo (RED ++ "[ERROR]" ++ NC ++ " " ++ msg).

(** ["${n:?message}"]: the positional parameter, or the message on standard
    error and the end of the script, which bash does with status 1, when
    the parameter is unset or empty. *)
Definition required (args : list string) (n : nat) (message : string)
  : sh string :=
  match nth_error args (n - 1) with
  | Some (String c rest) => ret (String c rest)
  | _ => ([Complain message], Exit 1)
  end.

Section WithWorld.

Variable w : world.

(** A simple command under [set -e]. *)
Definition run (argv : list string) : sh unit :=
  ([Exec argv], if status_of w argv =? 0 then Go tt else Exit (status_of w argv)).

(** [command || true] *)
Definition run_or_true (argv : list string) : sh unit :=
  ([Exec argv], Go tt).

(** The four remote steps, as the script spells their command lines. *)
Definition cleanup_command (DEST_IP BINARY DEST_DIR USER PASS : string)
  : list string :=
  [ "sshpass"; "-p"; PASS; "ssh"; "-o"; "StrictHostKeyChecking=no";
    "-o"; "ConnectTimeout=10"; USER ++ "@" ++ DEST_IP;
    "sh -c 'pkill -f gdbserver 2>/dev/null; rm -rf " ++ DEST_DIR ++ "/" ++
    BINARY ++ "; exit 0'" ].

Definition upload_command (DEST_IP BINARY DEST_DIR USER PASS : string)
  : list string :=
  [ "sshpass"; "-p"; PASS; "scp"; "-o"; "StrictHostKeyChecking=no";
    "-o"; "ConnectTimeout=10"; BINARY;
    USER ++ "@" ++ DEST_IP ++ ":" ++ DEST_DIR ++ "/" ++ BINARY ].

Definition chmod_command (DEST_IP BINARY DEST_DIR USER PASS : string)
  : list string :=
  [ "sshpass"; "-p"; PASS; "ssh"; "-o"; "StrictHostKeyChecking=no";
    USER ++ "@" ++ DEST_IP; "chmod +x " ++ DEST_DIR ++ "/" ++ BINARY ].

Definition gdbserver_command
    (DEST_IP DEBUG_PORT BINARY DEST_DIR USER PASS : string) : list string :=
  [ "sshpass"; "-p"; PASS; "ssh"; "-t"; "-o"; "StrictHostKeyChecking=no";
    USER ++ "@" ++ DEST_IP;
    "sh -c 'cd " ++ DEST_DIR ++ "; gdbserver localhost:" ++ DEBUG_PORT ++
    " " ++ BINARY ++ "'" ].

(** Lines 40-51: the local prerequisites. *)
Definition prerequisites (BINARY : string) : sh unit :=
  (if negb (is_file w BINARY) then
     log_error ("Binary file '" ++ BINARY ++ "' not found!") ;;;
     log_info "Run 'make' first to build the binary." ;;;
     exit 1
   else ret tt) ;;;
  (if negb (command_v w "sshpass") then
     log_error
       "sshpass is not installed. Install it with: sudo apt install sshpass" ;;;
     exit 1
   else ret tt).

(** Lines 53-74: the remote steps. *)
Definition remote_steps
    (DEST_IP DEBUG_PORT BINARY DEST_DIR USER PASS : string) : sh unit :=
  log_info ("Deploying to " ++ USER ++ "@" ++ DEST_IP ++ ":" ++ DEST_DIR ++
            "/" ++ BINARY) ;;;
  log_info "Cleaning up previous deployment..." ;;;
  run_or_true (cleanup_command DEST_IP BINARY DEST_DIR USER PASS) ;;;
  log_info "Uploading binary..." ;;;
  run (upload_command DEST_IP BINARY DEST_DIR USER PASS) ;;;
  run (chmod_command DEST_IP BINARY DEST_DIR USER PASS) ;;;
  log_info ("Starting gdbserver on " ++ DEST_IP ++ ":" ++ DEBUG_PORT ++ "...") ;;;
  run (gdbserver_command DEST_IP DEBUG_PORT BINARY DEST_DIR USER PASS).

(** The script, from the argument parsing to the last command. *)
Definition deploy (args : list string) : sh unit :=
  DEST_IP <- required args 1 "Error: TARGET_IP is required" ;;
  DEBUG_PORT <- required args 2 "Error: DEBUG_PORT is required" ;;
  BINARY <- required args 3 "Error: BINARY name is required" ;;
  DEST_DIR <- required args 4 "Error: DEST_DIR is required" ;;
  USER <- required args 5 "Error: USER is required" ;;
  PASS <- required args 6 "Error: PASS is required" ;;
  prerequisites BINARY ;;;
  remote_steps DEST_IP DEBUG_PORT BINARY DEST_DIR USER PASS.

End WithWorld.

(** The exit status of a finished run. *)
Definition exit_status (r : sh unit) : Z :=
  match snd r with
  | Go _ => 0
  | Exit status => status
  end.

(** The external commands of a run, in order. *)
Definition commands (r : sh unit) : list (list string) :=
  flat_map (fun a => match a with Exec argv => [argv] | _ => [] end) (fst r).

(** The third positional parameter, empty when absent. *)
Definition artifact_path (args : list string) : string := nth 2 args "".

(** Six non-empty positional parameters. *)
Definition well_formed (args : list string) : bool :=
  (6 <=? List.length args)%nat &&
  forallb (fun a => negb (String.eqb a "")) (firstn 6 args).

(** The README's invocation of the script. *)
Definition sample_args : list string :=
  ["192.168.1.100"; "6666"; "firmware.bin"; "/home/debian"; "debian";
   "password"].

(** A world in which the cleanup command fails and every other command
    succeeds. *)
Definition cleanup_fails : world :=
  {| is_file := fun _ => true;
     command_v := fun _ => true;
     status_of := fun argv =>
       if String.eqb (nth 3 argv "") "ssh" && (List.length argv =? 10)%nat
       then 255 else 0 |}.

End Deploy.

(** ** src/main.cpp: compile-time selections and the signal handler *)

Module Program.

Import Logger MainProgram.








Definition SIGINT : Z := 2.
Definition SIGTERM : Z := 15.

(** The name the handler prints for a signal number. *)
Definition signal_name (signum : Z) : string :=
  if signum =? SIGINT then "SIGINT"
  else if signum =? SIGTERM then "SIGTERM"
  else "UNKNOWN".

(** [signalHandler]: the warning and the new value of [g_running].  [line]
    is the [__LINE__] of the two-line [LOG_WARN] call. *)
Definition signalHandler (logger : Logger) (now : tm) (line signum : Z)
  : list event * bool :=
  (log logger now LVL_WARN "signalHandler" FILE_NAME line
     ("Received signal " ++ fmt_d signum ++ " (" ++ signal_name signum ++
      "), shutting down..."),
   false).

Section Signalled.

Variable DEBUG : bool.
Variable clock : Z -> Z -> tm.
Variable logger : Logger.
Variable handler_line : Z.

(** The loop with the flag as a variable and the handler run on delivery.
    [deliveries] gives, for each iteration in turn, the signal that arrives
    while the iteration sleeps, if any; the handler then runs before the
    next read of the flag.  There is no result when the list is exhausted
    while the flag is still set, or when the counter would overflow. *)
Fixpoint loop_signalled (deliveries : list (option Z)) (g_running : bool)
    (counter : Z) : option (list event * Z) :=
  if g_running then
    match deliveries with
    | [] => None
    | delivery :: later =>
        if INT_MAX <=? counter then None
        else
          let '(body, counter') := loop_body DEBUG clock logger counter in
          let '(handled, g_running') :=
            match delivery with
            | Some signum =>
                signalHandler logger (clock handler_line counter')
                  handler_line signum
            | None => ([], g_running)
            end in
          match loop_signalled later g_running' counter' with
          | Some (rest, final) =>
              Some ((EvReadFlag true :: body ++ handled ++ rest)%list, final)
          | None => None
          end
    end
  else Some ([EvReadFlag false], counter).

End Signalled.

(** The number of records a trace completes (each ends with a flush) and
    the time it sleeps. *)
Fixpoint flushes (trace : list event) : nat :=
  match trace with
  | [] => O
  | EvFlush _ :: rest => S (flushes rest)
  | _ :: rest => flushes rest
  end.

Fixpoint slept (trace : list event) : Z :=
  match trace with
  | [] => 0
  | EvSleep usec :: rest => usec + slept rest
  | _ :: rest => slept rest
  end.

End Program.

(** ** Makefile: what a goal does to the files *)

Module MakeRun.

Import Makefile.











Section WithMachine.

Variable m : machine.

(** Whether a file is older than one of its prerequisites. *)
Variable stale : string -> bool.



End WithMachine.




End MakeRun.

(** ** deploy.sh: the parameters *)

Module DeployArgs.


(** The position, from 0, of the first of the first [n] parameters counted
    from [from] that is missing or empty. *)
Fixpoint first_missing (args : list string) (from n : nat) {struct n}
  : option nat :=
  match n with
  | O => None
  | S n' =>
      match args with
      | String _ _ :: rest => first_missing rest (S from) n'
      | _ => Some from
      end
  end.

End DeployArgs.

(** * Properties *)

(** ** Text helpers *)

Lemma append_assoc (a b c : string) : (a ++ b) ++ c = a ++ (b ++ c).
Proof. induction a as [|x a IH]; simpl; [reflexivity | now rewrite IH]. Qed.

Lemma append_empty_r (a : string) : a ++ "" = a.
Proof. induction a as [|x a IH]; simpl; [reflexivity | now rewrite IH]. Qed.

Lemma contains_app (c : ascii) (a b : string) :
  contains c (a ++ b) = contains c a || contains c b.
Proof.
  induction a as [|x a IH]; simpl; [reflexivity |].
  now rewrite IH, orb_assoc.
Qed.

Lemma count_char_app (c : ascii) (a b : string) :
  count_char c (a ++ b) = (count_char c a + count_char c b)%nat.
Proof.
  induction a as [|x a IH]; simpl; [reflexivity |].
  rewrite IH. lia.
Qed.

Lemma count_char_absent (c : ascii) (s : string) :
  contains c s = false -> count_char c s = 0%nat.
Proof.
  induction s as [|x s IH]; simpl; [reflexivity |].
  intros H. apply orb_false_iff in H. destruct H as [Hx Hs].
  rewrite Hx, (IH Hs). reflexivity.
Qed.

Lemma is_digit_digit_char (d : Z) : 0 <= d < 10 -> is_digit (digit_char d) = true.
Proof.
  intros H.
  assert (E : d = 0 \/ d = 1 \/ d = 2 \/ d = 3 \/ d = 4 \/
              d = 5 \/ d = 6 \/ d = 7 \/ d = 8 \/ d = 9) by lia.
  repeat (destruct E as [E | E]; [subst d; reflexivity |]).
  subst d; reflexivity.
Qed.

Lemma is_digit_not (c a : ascii) :
  is_digit c = true -> is_digit a = false -> Ascii.eqb c a = false.
Proof.
  intros Hc Ha. apply Ascii.eqb_neq. intros E. subst a. congruence.
Qed.

Lemma digit_of_mod (n : Z) : is_digit (digit_char (n mod 10)) = true.
Proof. apply is_digit_digit_char. apply Z.mod_pos_bound. lia. Qed.

(** The digits [utoa] emits are decimal digits, whatever the fuel. *)
Lemma utoa_contains (c : ascii) (fuel : nat) :
  is_digit c = false ->
  forall n acc, contains c (utoa fuel n acc) = contains c acc.
Proof.
  intros Hc. induction fuel as [|fuel IH]; intros n acc; cbn [utoa].
  - cbn [contains]. now rewrite (is_digit_not _ _ (digit_of_mod n) Hc).
  - destruct (n <? 10).
    + cbn [contains]. now rewrite (is_digit_not _ _ (digit_of_mod n) Hc).
    + rewrite IH. cbn [contains].
      now rewrite (is_digit_not _ _ (digit_of_mod n) Hc).
Qed.

Lemma fmt_d_contains (c : ascii) (n : Z) :
  is_digit c = false -> Ascii.eqb "-" c = false -> contains c (fmt_d n) = false.
Proof.
  intros Hc Hm. unfold fmt_d, fmt_u.
  destruct (n <? 0); cbn [append contains]; [rewrite Hm; cbn [orb] |];
    now rewrite utoa_contains.
Qed.

Lemma utoa_last (fuel : nat) (n : Z) (acc : string) :
  0 <= n < 10 -> utoa fuel n acc = String (digit_char n) acc.
Proof.
  intros H. rewrite <- (Z.mod_small n 10) at 2 by lia.
  destruct fuel; cbn [utoa]; [reflexivity |].
  assert (E : (n <? 10) = true) by (apply Z.ltb_lt; lia).
  now rewrite E.
Qed.

Lemma utoa_more (fuel : nat) (n : Z) (acc : string) :
  10 <= n ->
  utoa (S fuel) n acc = utoa fuel (n / 10) (String (digit_char (n mod 10)) acc).
Proof.
  intros H. cbn [utoa].
  assert (E : (n <? 10) = false) by (apply Z.ltb_ge; lia).
  now rewrite E.
Qed.

(** The fuel [fmt_u] takes covers a number of at least [2^k]. *)
Lemma fuel_enough (k : nat) (n : Z) :
  2 ^ Z.of_nat k <= n -> exists more, Z.to_nat (Z.log2 n) = (k + more)%nat.
Proof.
  intros H.
  assert (Hp : 0 < 2 ^ Z.of_nat k) by (apply Z.pow_pos_nonneg; lia).
  assert (Hk : Z.of_nat k <= Z.log2 n) by (apply Z.log2_le_pow2; lia).
  exists (Z.to_nat (Z.log2 n) - k)%nat. lia.
Qed.

Lemma utoa_acc (fuel : nat) :
  forall n acc, utoa fuel n acc = utoa fuel n "" ++ acc.
Proof.
  induction fuel as [|fuel IH]; intros n acc; cbn [utoa]; [reflexivity |].
  destruct (n <? 10); [reflexivity |].
  rewrite IH, (IH _ (String _ "")), append_assoc. reflexivity.
Qed.

(** Fuel beyond the number of digits changes nothing. *)
Lemma utoa_enough (fuel : nat) :
  forall n acc fuel',
    0 <= n < 10 ^ (Z.of_nat fuel + 1) -> (fuel <= fuel')%nat ->
    utoa fuel' n acc = utoa fuel n acc.
Proof.
  induction fuel as [|fuel IH]; intros n acc fuel' H Hle.
  - change (10 ^ (Z.of_nat 0 + 1)) with 10 in H.
    now rewrite !utoa_last by lia.
  - destruct fuel' as [|fuel']; [lia |]. cbn [utoa].
    destruct (n <? 10) eqn:E; [reflexivity |].
    apply Z.ltb_ge in E. apply IH; [| lia].
    replace (Z.of_nat (S fuel) + 1) with (Z.succ (Z.of_nat fuel + 1)) in H
      by lia.
    rewrite Z.pow_succ_r in H by lia.
    split; [apply Z.div_pos | apply Z.div_lt_upper_bound]; lia.
Qed.

Lemma fmt_u_fuel (n : Z) :
  0 < n -> n < 10 ^ (Z.of_nat (Z.to_nat (Z.log2 n)) + 1).
Proof.
  intros H. pose proof (Z.log2_spec n H) as [_ Hlt].
  pose proof (Z.log2_nonneg n) as Hlog.
  rewrite Z2Nat.id by assumption.
  apply Z.lt_le_trans with (1 := Hlt).
  apply Z.pow_le_mono_l. lia.
Qed.

(** [fmt_u] is positional decimal notation: one digit below ten, and the
    notation of the tenth followed by the last digit from ten on. *)
Lemma fmt_u_step (n : Z) :
  10 <= n -> fmt_u n = fmt_u (n / 10) ++ String (digit_char (n mod 10)) "".
Proof.
  intros H. unfold fmt_u.
  pose proof (fmt_u_fuel n ltac:(lia)) as Big.
  destruct (fuel_enough 1 n) as [more E];
    [change (2 ^ Z.of_nat 1) with 2; lia |].
  rewrite E in *. cbn [Nat.add] in *.
  rewrite utoa_more, utoa_acc by lia. f_equal.
  assert (Hm : 1 <= n / 10) by (apply Z.div_le_lower_bound; lia).
  replace (Z.of_nat (S more) + 1) with (Z.succ (Z.of_nat more + 1)) in Big
    by lia.
  rewrite Z.pow_succ_r in Big by lia.
  assert (Small : 0 <= n / 10 < 10 ^ (Z.of_nat more + 1))
    by (split; [lia | apply Z.div_lt_upper_bound; lia]).
  pose proof (fmt_u_fuel (n / 10) ltac:(lia)) as Own.
  destruct (Nat.le_ge_cases more (Z.to_nat (Z.log2 (n / 10)))) as [L | L].
  - symmetry. now apply utoa_enough.
  - apply utoa_enough; [lia | assumption].
Qed.

Lemma fmt_u_1 (n : Z) : 0 <= n < 10 -> fmt_u n = String (digit_char n) "".
Proof. intros H. unfold fmt_u. now apply utoa_last. Qed.

Lemma fmt_u_2 (n : Z) :
  10 <= n < 100 ->
  fmt_u n = String (digit_char (n / 10)) (String (digit_char (n mod 10)) "").
Proof.
  intros H. unfold fmt_u.
  destruct (fuel_enough 1 n) as [more E]; [change (2 ^ Z.of_nat 1) with 2; lia |].
  rewrite E. cbn [Nat.add]. rewrite utoa_more by lia.
  apply utoa_last. split; [apply Z.div_pos | apply Z.div_lt_upper_bound]; lia.
Qed.

Lemma fmt_u_4 (n : Z) :
  1000 <= n < 10000 ->
  fmt_u n =
    String (digit_char (n / 10 / 10 / 10))
      (String (digit_char (n / 10 / 10 mod 10))
         (String (digit_char (n / 10 mod 10))
            (String (digit_char (n mod 10)) ""))).
Proof.
  intros H. unfold fmt_u.
  destruct (fuel_enough 3 n) as [more E]; [change (2 ^ Z.of_nat 3) with 8; lia |].
  rewrite E. cbn [Nat.add].
  assert (H1 : 100 <= n / 10 < 1000)
    by (split; [apply Z.div_le_lower_bound | apply Z.div_lt_upper_bound]; lia).
  assert (H2 : 10 <= n / 10 / 10 < 100)
    by (split; [apply Z.div_le_lower_bound | apply Z.div_lt_upper_bound]; lia).
  assert (H3 : 1 <= n / 10 / 10 / 10 < 10)
    by (split; [apply Z.div_le_lower_bound | apply Z.div_lt_upper_bound]; lia).
  rewrite utoa_more by lia. rewrite utoa_more by lia. rewrite utoa_more by lia.
  apply utoa_last. lia.
Qed.

Lemma fmt_d_nonneg (n : Z) : 0 <= n -> fmt_d n = fmt_u n.
Proof.
  intros H. unfold fmt_d.
  assert (E : (n <? 0) = false) by (apply Z.ltb_ge; lia).
  now rewrite E.
Qed.

Lemma fmt_02d_two (n : Z) :
  0 <= n < 100 ->
  fmt_02d n = String (digit_char (n / 10)) (String (digit_char (n mod 10)) "").
Proof.
  intros H. unfold fmt_02d. rewrite fmt_d_nonneg by lia.
  destruct (Z.lt_ge_cases n 10) as [Hs | Hl].
  - rewrite fmt_u_1 by lia. cbn [String.length Nat.ltb Nat.leb append].
    rewrite Z.div_small, Z.mod_small by lia. reflexivity.
  - rewrite fmt_u_2 by lia. reflexivity.
Qed.

(** ** The logger *)

Module LoggerFacts.

Import Logger.

Lemma FILE_eqb_refl (f : FILE) : FILE_eqb f f = true.
Proof. destruct f; simpl; auto using Nat.eqb_refl. Qed.

Lemma strrchr_none (s : string) (c : ascii) :
  strrchr s c = None -> contains c s = false.
Proof.
  induction s as [|a s IH]; simpl; [reflexivity |].
  destruct (strrchr s c); [discriminate |].
  destruct (Ascii.eqb a c); [discriminate |].
  intros _. now rewrite IH.
Qed.

(** A hit of [strrchr] splits the string at the last occurrence. *)
Lemma strrchr_some (s : string) (c : ascii) (tail : string) :
  strrchr s c = Some tail ->
  exists before after,
    s = before ++ tail /\ tail = String c after /\ contains c after = false.
Proof.
  revert tail. induction s as [|a s IH]; simpl; intros tail H; [discriminate |].
  destruct (strrchr s c) as [t|] eqn:E.
  - injection H as <-. destruct (IH t eq_refl) as (before & after & Hs & Ht & Hc).
    exists (String a before), after. simpl. now rewrite <- Hs.
  - destruct (Ascii.eqb a c) eqn:Eac; [| discriminate].
    injection H as <-. apply Ascii.eqb_eq in Eac. subst a.
    exists "", s. simpl. auto using strrchr_none.
Qed.

(** What [getFilename] returns, by cases on the separators in the path. *)
Lemma getFilename_cases (path : string) :
  (exists before, path = before ++ String "/" (getFilename path)) \/
  (contains "/" path = false /\
   exists before, path = before ++ String "\" (getFilename path) /\
                  contains "\" (getFilename path) = false) \/
  (contains "/" path = false /\ contains "\" path = false /\
   getFilename path = path).
Proof.
  unfold getFilename.
  destruct (strrchr path "/") as [t|] eqn:E.
  - destruct (strrchr_some _ _ _ E) as (before & after & Hs & Ht & Hc).
    subst t. left. now exists before.
  - right. pose proof (strrchr_none _ _ E) as Hno.
    destruct (strrchr path "\") as [t|] eqn:E'.
    + destruct (strrchr_some _ _ _ E') as (before & after & Hs & Ht & Hc).
      subst t. left. split; [assumption |]. now exists before.
    + right. auto using strrchr_none.
Qed.

Lemma getFilename_no_slash (path : string) :
  contains "/" (getFilename path) = false.
Proof.
  unfold getFilename.
  destruct (strrchr path "/") as [t|] eqn:E.
  - destruct (strrchr_some _ _ _ E) as (before & after & Hs & Ht & Hc).
    now subst t.
  - pose proof (strrchr_none _ _ E) as Hno.
    destruct (strrchr path "\") as [t|] eqn:E'; [| assumption].
    destruct (strrchr_some _ _ _ E') as (before & after & Hs & Ht & Hc).
    subst t. rewrite Hs, contains_app in Hno.
    apply orb_false_iff in Hno. destruct Hno as [_ Hno].
    simpl in Hno. exact Hno.
Qed.

Lemma getFilename_suffix (path : string) :
  exists before, path = before ++ getFilename path.
Proof.
  destruct (getFilename_cases path) as [[b H] | [[_ [b [H _]]] | [_ [_ H]]]].
  - exists (b ++ "/"). rewrite append_assoc. exact H.
  - exists (b ++ "\"). rewrite append_assoc. exact H.
  - exists "". now rewrite H.
Qed.

Lemma levelToString_cases (level : LogLevel) :
  In (levelToString level)
     ["TRACE"; "DEBUG"; "INFO "; "WARN "; "ERROR"; "FATAL"; "?????"].
Proof.
  destruct level as [|p|p]; simpl; auto 10.
  destruct p as [[p|p|]|[p|p|]|]; simpl; auto 10;
    destruct p; simpl; auto 10.
Qed.

Lemma levelToString_length (level : LogLevel) :
  String.length (levelToString level) = 5%nat.
Proof.
  pose proof (levelToString_cases level) as H. simpl in H.
  repeat (destruct H as [<- | H]; [reflexivity |]). contradiction.
Qed.

Lemma levelToString_one_line (level : LogLevel) :
  contains LF (levelToString level) = false.
Proof.
  pose proof (levelToString_cases level) as H. simpl in H.
  repeat (destruct H as [<- | H]; [reflexivity |]). contradiction.
Qed.

Lemma levelToString_undefined (level : LogLevel) :
  is_defined_level level = false -> levelToString level = "?????".
Proof.
  unfold is_defined_level, LVL_TRACE, LVL_FATAL. intros H.
  apply andb_false_iff in H.
  destruct level as [|p|p]; [destruct H; discriminate | | reflexivity].
  destruct H as [H | H]; [discriminate |].
  apply Z.leb_gt in H.
  destruct p as [[p|p|]|[p|p|]|]; try lia; try reflexivity;
    destruct p; try lia; reflexivity.
Qed.

(** A valid time prints as [YYYY-MM-DD HH:MM:SS]. *)
Lemma getTimestamp_shape (now : tm) :
  valid_tm now -> is_timestamp (getTimestamp now) = true.
Proof.
  intros (Hy & Hmo & Hd & Hh & Hmi & Hs). unfold getTimestamp.
  assert (D2 : forall n, 0 <= n < 100 -> is_digit (digit_char (n / 10)) = true).
  { intros n H. apply is_digit_digit_char.
    split; [apply Z.div_pos | apply Z.div_lt_upper_bound]; lia. }
  set (y := tm_year now + 1900) in *.
  assert (Y : is_digit (digit_char (y / 10 / 10 / 10)) = true).
  { apply is_digit_digit_char. split.
    - apply Z.div_pos; [apply Z.div_pos; [apply Z.div_pos |] |]; lia.
    - repeat (apply Z.div_lt_upper_bound; [lia |]). lia. }
  rewrite fmt_d_nonneg, fmt_u_4 by lia.
  rewrite !fmt_02d_two by lia.
  cbn [append is_timestamp].
  rewrite Y, !digit_of_mod, !D2 by lia. reflexivity.
Qed.

Lemma getTimestamp_one_line (now : tm) : contains LF (getTimestamp now) = false.
Proof.
  unfold getTimestamp, fmt_02d.
  repeat match goal with
         | |- context [if ?b then _ else _] => destruct b
         end;
    rewrite ?contains_app; cbn [contains];
    rewrite ?fmt_d_contains by reflexivity; reflexivity.
Qed.

(** The conversions on sample values. *)
Example fmt_d_samples :
  fmt_d 0 = "0" /\ fmt_d 7 = "7" /\ fmt_d 772 = "772" /\
  fmt_d 2147483647 = "2147483647" /\ fmt_d (-40) = "-40" /\
  fmt_02d 5 = "05" /\ fmt_02d 59 = "59".
Proof. repeat split; reflexivity. Qed.

Example getTimestamp_sample :
  getTimestamp (mkTm 125 11 3 13 23 56) = "2025-12-03 13:23:56" /\
  getTimestamp (mkTm 70 0 1 0 0 0) = "1970-01-01 00:00:00".
Proof. split; reflexivity. Qed.

Example getFilename_samples :
  getFilename "/a/b/c/file.cpp" = "file.cpp" /\
  getFilename "src/main.cpp" = "main.cpp" /\
  getFilename "main.cpp" = "main.cpp" /\
  getFilename "C:\proj\src\main.cpp" = "main.cpp" /\
  getFilename "dir/" = "".
Proof. repeat split; reflexivity. Qed.

Lemma log_below (self : Logger) now level func file line msg :
  level < minLevel_ self -> log self now level func file line msg = [].
Proof.
  intros H. unfold log.
  assert (E : (level <? minLevel_ self) = true) by (apply Z.ltb_lt; lia).
  now rewrite E.
Qed.

Lemma log_written (self : Logger) now level func file line msg :
  minLevel_ self <= level ->
  written (output_ self) (log self now level func file line msg) =
  record_line (getTimestamp now) (levelToString level) func
    (getFilename file) line msg ++ newline.
Proof.
  intros H. unfold log.
  assert (E : (level <? minLevel_ self) = false) by (apply Z.ltb_ge; lia).
  rewrite E. cbn [written]. rewrite !FILE_eqb_refl.
  unfold record_line. rewrite !append_assoc, append_empty_r. reflexivity.
Qed.

Lemma record_line_one_line timestamp label func filename line msg :
  contains LF timestamp = false -> contains LF label = false ->
  contains LF func = false -> contains LF filename = false ->
  contains LF msg = false ->
  count_char LF (record_line timestamp label func filename line msg ++ newline)
  = 1%nat.
Proof.
  intros Ht Hl Hf Hn Hm. unfold record_line.
  rewrite !count_char_app.
  rewrite (count_char_absent _ _ Ht), (count_char_absent _ _ Hl),
    (count_char_absent _ _ Hf), (count_char_absent _ _ Hn),
    (count_char_absent _ _ Hm),
    (count_char_absent _ _ (fmt_d_contains LF line eq_refl eq_refl)).
  reflexivity.
Qed.

(** C6: a call below the logger's minimum severity performs no effect at
    all, so nothing is written; a call at or above it writes exactly the
    record [YYYY-MM-DD HH:MM:SS LEVEL [function] [file:line] : message]
    followed by one newline, which is a single line whenever the parts hold
    no newline themselves; the file field is the tail of the path after its
    last slash, so it holds no slash, and [/a/b/c/file.cpp] gives
    [file.cpp]. *)
Theorem log_threshold_and_record
    (self : Logger) (now : tm) (level : LogLevel) (func file : string)
    (line : Z) (msg : string) :
  let effects := log self now level func file line msg in
  let out := written (output_ self) effects in
  (level < minLevel_ self -> effects = [] /\ out = "") /\
  (minLevel_ self <= level ->
     out = record_line (getTimestamp now) (levelToString level) func
             (getFilename file) line msg ++ newline /\
     (valid_tm now -> is_timestamp (getTimestamp now) = true) /\
     (contains LF func = false -> contains LF (getFilename file) = false ->
      contains LF msg = false -> count_char LF out = 1%nat)) /\
  contains "/" (getFilename file) = false /\
  (exists directories, file = directories ++ getFilename file) /\
  getFilename "/a/b/c/file.cpp" = "file.cpp".
Proof.
  cbv zeta. repeat split.
  - now apply log_below.
  - rewrite log_below by assumption. reflexivity.
  - now apply log_written.
  - apply getTimestamp_shape.
  - intros Hf Hn Hm. rewrite log_written by assumption.
    apply record_line_one_line;
      auto using getTimestamp_one_line, levelToString_one_line.
  - apply getFilename_no_slash.
  - apply getFilename_suffix.
Qed.

(** The record of the header's example, on a logger at its default level. *)
Example log_threshold_and_record_example :
  written stdout
    (log Logger_init (mkTm 125 11 3 13 23 56) LVL_DEBUG "run"
       "/src/app/PSApp.cpp" 772 "pthread_create() for thread 6 returns: 0")
  = "2025-12-03 13:23:56 DEBUG [run] [PSApp.cpp:772] : pthread_create() for thread 6 returns: 0"
    ++ newline
  /\ log Logger_init (mkTm 125 11 3 13 23 56) LVL_TRACE "run"
       "/src/app/PSApp.cpp" 772 "never shown" = [].
Proof. split; reflexivity. Qed.

(** C7, the claim as stated: every label is the severity's name with spaces
    added on its left up to five characters.  It fails at INFO, whose label
    carries its space on the right. *)
Lemma levelToString_not_padded_on_the_left :
  ~ (forall level : LogLevel,
       is_defined_level level = true ->
       levelToString level = pad_left 5 (severity_name level)).
Proof.
  intros H. specialize (H LVL_INFO eq_refl). discriminate H.
Qed.

(** C7, amended: for each of the six severities the label is exactly five
    characters long, the severity's name followed by as many spaces as it
    takes (the padding is on the right, the name is flush left). *)
Theorem levelToString_padded_on_the_right (level : LogLevel) :
  is_defined_level level = true ->
  levelToString level = pad_right 5 (severity_name level) /\
  String.length (levelToString level) = 5%nat.
Proof.
  unfold is_defined_level, LVL_TRACE, LVL_FATAL. intros H.
  apply andb_true_iff in H. destruct H as [Hlo Hhi].
  apply Z.leb_le in Hlo. apply Z.leb_le in Hhi.
  assert (E : level = 0 \/ level = 1 \/ level = 2 \/ level = 3 \/
              level = 4 \/ level = 5) by lia.
  repeat (destruct E as [E | E]; [subst level; split; reflexivity |]).
  subst level; split; reflexivity.
Qed.

Lemma levelToString_padded_on_the_right_witness :
  levelToString LVL_WARN = pad_right 5 (severity_name LVL_WARN) /\
  String.length (levelToString LVL_WARN) = 5%nat.
Proof. apply (levelToString_padded_on_the_right LVL_WARN). reflexivity. Defined.

(** C10: [levelToString] is total over every value a [LogLevel] can hold:
    the label always has five characters, a value outside the six
    enumerators gets [?????], and a call of [log] with any level that
    passes the threshold writes the record with that label. *)
Theorem levelToString_total (level : LogLevel) :
  String.length (levelToString level) = 5%nat /\
  (is_defined_level level = false -> levelToString level = "?????") /\
  (forall (self : Logger) now func file line msg,
     minLevel_ self <= level ->
     written (output_ self) (log self now level func file line msg) =
     record_line (getTimestamp now) (levelToString level) func
       (getFilename file) line msg ++ newline).
Proof.
  split; [apply levelToString_length |].
  split; [apply levelToString_undefined |].
  intros. now apply log_written.
Qed.

Example levelToString_total_example :
  written stdout
    (log Logger_init (mkTm 125 0 9 8 5 0) 42 "f" "a\b.cpp" 7 "m")
  = "2025-01-09 08:05:00 ????? [f] [b.cpp:7] : m" ++ newline.
Proof. reflexivity. Qed.

End LoggerFacts.

(** ** The main loop *)

Module MainProgramFacts.

Import Logger MainProgram.

Section Loop.

Variable DEBUG : bool.
Variable clock : Z -> Z -> tm.

Let logger : Logger := configured_logger DEBUG.

(** With the logger as [main] sets it, the body of the loop prints the
    counter message and then sleeps; the periodic trace of debug builds is
    below the threshold and leaves no effect. *)
Lemma loop_body_configured (counter : Z) :
  0 <= counter ->
  loop_body DEBUG clock logger counter =
  ((counter_message DEBUG clock counter ++ [EvSleep Config.LOOP_DELAY_US])%list,
   counter + 1).
Proof.
  intros H. unfold loop_body, counter_message, LOG, logger.
  rewrite Z.rem_mod_nonneg by lia.
  destruct DEBUG; cbn [configured_logger].
  - assert (T : forall now msg,
        log (setLevel Logger_init LVL_DEBUG) now LVL_TRACE "mainLoop"
          FILE_NAME 184 msg = []) by reflexivity.
    rewrite T. destruct (Z.rem (counter + 1) 10 =? 0); reflexivity.
  - destruct (counter mod 10 =? 0); reflexivity.
Qed.

Lemma loop_runs (n : nat) :
  forall (counter : Z) (later : list bool),
    0 <= counter -> counter + Z.of_nat n <= INT_MAX ->
    loop DEBUG clock logger (repeat true n ++ false :: later)%list counter =
    Some ((flat_map (iteration DEBUG clock) (counters counter n) ++
           [EvReadFlag false])%list,
          counter + Z.of_nat n).
Proof.
  induction n as [|n IH]; intros counter later H0 Hmax.
  - cbn [repeat app loop counters flat_map]. now rewrite Z.add_0_r.
  - cbn [repeat app loop].
    assert (E : (INT_MAX <=? counter) = false) by (apply Z.leb_gt; lia).
    rewrite E, loop_body_configured by assumption.
    rewrite IH by lia.
    cbn [counters flat_map]. unfold iteration at 2.
    cbn [app]. rewrite <- !app_assoc. cbn [app].
    replace (counter + 1 + Z.of_nat n) with (counter + Z.of_nat (S n)) by lia.
    reflexivity.
Qed.

End Loop.

(** C8, the claim as stated: in every iteration the sleep comes before the
    counter is printed.  A debug build that observes the flag set on the
    second read prints "Counter: 0" and only then sleeps. *)
Lemma mainLoop_does_not_sleep_first :
  ~ (forall (DEBUG : bool) (clock : Z -> Z -> tm) (observed : list bool)
            (effects : list event) (n : Z),
       mainLoop DEBUG clock (configured_logger DEBUG) observed
         = Some (effects, n) ->
       forallb sleeps_then_logs (iterations effects) = true).
Proof.
  intros H.
  specialize (H true (fun _ _ => mkTm 125 11 3 13 23 56) [true; false]
                _ _ eq_refl).
  vm_compute in H. discriminate H.
Qed.

(** C8, amended: when the first [n] reads of the flag find it clear and the
    next read finds it set, the loop returns after exactly [n] iterations and
    [n + 1] reads, one per iteration and the one that ends the loop; each
    iteration prints the counter message (every iteration in a debug build,
    when the counter is a multiple of ten otherwise) and then sleeps the
    fixed interval; after the last read the loop reports the count [n]. *)
Theorem mainLoop_runs_until_flag
    (DEBUG : bool) (clock : Z -> Z -> tm) (n : nat) (later : list bool) :
  Z.of_nat n <= INT_MAX ->
  mainLoop DEBUG clock (configured_logger DEBUG)
    (repeat true n ++ false :: later)%list
  = Some ((log (configured_logger DEBUG) (clock 167 0) LVL_INFO "mainLoop"
             FILE_NAME 167 "Starting main loop (Ctrl+C to exit)..." ++
           flat_map (iteration DEBUG clock) (counters 0 n) ++
           [EvReadFlag false] ++
           report DEBUG clock (Z.of_nat n))%list,
          Z.of_nat n)
  /\ (forall counter,
        written stdout (counter_message DEBUG clock counter) =
        if DEBUG then
          record_line (getTimestamp (clock 173 counter)) "DEBUG" "mainLoop"
            "main.cpp" 173 ("Counter: " ++ fmt_d counter) ++ newline
        else if counter mod 10 =? 0 then
          record_line (getTimestamp (clock 176 counter)) "INFO " "mainLoop"
            "main.cpp" 176
            ("Counter: " ++ fmt_d counter ++
             " (release mode - showing every 10th)") ++ newline
        else "")
  /\ written stdout (report DEBUG clock (Z.of_nat n)) =
     record_line (getTimestamp (clock 191 (Z.of_nat n))) "INFO " "mainLoop"
       "main.cpp" 191
       ("Main loop exited after " ++ fmt_d (Z.of_nat n) ++ " iterations")
     ++ newline.
Proof.
  intros Hmax. split; [| split].
  - unfold mainLoop. rewrite loop_runs by lia.
    cbn [Z.add]. unfold report, LOG. rewrite <- !app_assoc. reflexivity.
  - intros counter. unfold counter_message. destruct DEBUG.
    + apply (LoggerFacts.log_written (configured_logger true)).
      vm_compute; discriminate.
    + destruct (counter mod 10 =? 0); [| reflexivity].
      apply (LoggerFacts.log_written (configured_logger false)).
      vm_compute; discriminate.
  - unfold report.
    destruct DEBUG;
      [ apply (LoggerFacts.log_written (configured_logger true))
      | apply (LoggerFacts.log_written (configured_logger false)) ];
      vm_compute; discriminate.
Qed.

(** A release build whose thirteenth read of the flag finds it set: twelve
    iterations, the counter printed at 0 and at 10. *)
Lemma mainLoop_runs_until_flag_witness :
  let clock := fun _ _ : Z => mkTm 125 11 3 13 23 56 in
  Z.of_nat 12 <= INT_MAX /\
  option_map snd
    (mainLoop false clock (configured_logger false)
       (repeat true 12 ++ [false])%list) = Some 12 /\
  map (fun counter => written stdout (counter_message false clock counter))
    (counters 9 3)
  = [ "";
      "2025-12-03 13:23:56 INFO  [mainLoop] [main.cpp:176] : Counter: 10 (release mode - showing every 10th)"
      ++ newline;
      "" ].
Proof.
  assert (Hmax : Z.of_nat 12 <= INT_MAX) by (vm_compute; discriminate).
  pose proof (mainLoop_runs_until_flag false
                (fun _ _ => mkTm 125 11 3 13 23 56) 12 [] Hmax)
    as (Run & Shown & _).
  cbv zeta. split; [exact Hmax |]. split.
  - rewrite Run. reflexivity.
  - cbn [counters map]. rewrite !Shown. reflexivity.
Defined.

End MainProgramFacts.

(** ** The Makefile *)

Module MakefileFacts.

Import Makefile.

Lemma CFLAGS_profile (p : profile) :
  CFLAGS (profile_token p) = (COMMON_FLAGS ++ documented_bundle p)%list.
Proof. destruct p; reflexivity. Qed.

(** C1: for each of the six architectures and both profiles, the build that
    [make cross_compile] resolves to runs the architecture's compiler with
    the common flags followed by the documented bundle of the profile:
    [-g3 -O0 -DDEBUG] for debug, [-O2 -DNDEBUG -s] for release, where no
    flag asks for debug information.  The goals named after a mode select
    the same bundles whatever mode is in force, and for arm64 in release
    mode the flags hold [-O2] and [-DNDEBUG] and no [-g] flag. *)
Theorem flags_follow_profile (base : settings) (a : architecture) (p : profile) :
  (exists b,
     resolve (cross_settings base a p) cross_compile = Some b /\
     flags b = (COMMON_FLAGS ++ documented_bundle p)%list /\
     exists rest,
       command b =
       ([toolchain a] ++ COMMON_FLAGS ++ documented_bundle p ++
        [("-D" ++ arch_token a)%string] ++ rest)%list) /\
  option_map flags (resolve (with_mode base p) all)
    = Some (COMMON_FLAGS ++ documented_bundle p)%list /\
  option_map flags (resolve (with_mode base p) host_compile)
    = Some (COMMON_FLAGS ++ documented_bundle p)%list /\
  (forall g, In g [debug; host; host_debug; cross_debug] ->
     option_map flags (resolve base g)
     = Some (COMMON_FLAGS ++ documented_bundle profile_debug)%list) /\
  (forall g, In g [release; host_release; cross_release] ->
     option_map flags (resolve base g)
     = Some (COMMON_FLAGS ++ documented_bundle profile_release)%list) /\
  existsb is_debug_info_flag (COMMON_FLAGS ++ documented_bundle profile_release)
    = false /\
  (forall b,
     resolve (cross_settings base arm64 profile_release) cross_compile = Some b ->
     In "-O2" (flags b) /\ In "-DNDEBUG" (flags b) /\ In "-s" (flags b) /\
     existsb is_debug_info_flag (flags b) = false).
Proof.
  split; [| split; [| split; [| split; [| split; [| split]]]]].
  - eexists. split; [reflexivity |]. split.
    + cbn [flags cross_build cross_settings BUILD_MODE BUILD_MODE_given].
      apply CFLAGS_profile.
    + eexists.
      cbn [command cross_build cross_settings BUILD_MODE BUILD_MODE_given CPP
           CROSS_ARCH].
      rewrite CFLAGS_profile, <- !app_assoc. reflexivity.
  - cbn. apply f_equal, CFLAGS_profile.
  - cbn. apply f_equal, CFLAGS_profile.
  - apply Forall_forall. repeat constructor.
  - apply Forall_forall. repeat constructor.
  - reflexivity.
  - intros b H. injection H as <-.
    repeat split; try reflexivity;
      cbn; repeat (first [left; reflexivity | right]).
Qed.

(** C9, the claim as stated: every build for an architecture other than
    the host's names its artifact [<project>_<architecture>.bin].  The
    default goal, which the Makefile and the test script use for ARM HF,
    runs the armhf compiler and names its artifact [firmware.bin]. *)
Lemma default_armhf_artifact_has_no_suffix :
  exists b,
    resolve (TestBuild.settings_of []) all = Some b /\
    hd "" (command b) = toolchain armhf /\
    artifact b = "firmware.bin" /\
    artifact b <> PROJECT_NAME ++ "_" ++ arch_token armhf ++ ".bin" /\
    artifact b <> HOST_BINARY.
Proof.
  eexists. split; [reflexivity |]. repeat split; discriminate.
Qed.

(** C9, amended: the generic cross-compile goals name the artifact
    [<project>_<architecture>.bin] for whatever architecture token they are
    given, so [firmware_arm64.bin] for arm64; the host goals name it
    [program.bin]; the default ARM HF goals ([all], [debug], [release]) name
    it [<project>.bin], without the architecture. *)
Theorem artifact_names (s : settings) (a : architecture) (p : profile) :
  (forall g, In g [cross_compile; cross_debug; cross_release] ->
     option_map artifact (resolve s g)
     = Some (PROJECT_NAME ++ "_" ++ CROSS_ARCH s ++ ".bin")) /\
  (forall g, In g [cross_compile; cross_debug; cross_release] ->
     option_map artifact (resolve (cross_settings s a p) g)
     = Some ("firmware_" ++ arch_token a ++ ".bin")) /\
  option_map artifact
    (resolve (cross_settings s arm64 profile_release) cross_compile)
    = Some "firmware_arm64.bin" /\
  (forall g, In g [host; host_debug; host_release; host_compile] ->
     option_map artifact (resolve s g) = Some "program.bin") /\
  (forall g, In g [all; debug; release] ->
     option_map artifact (resolve s g) = Some "firmware.bin" /\
     option_map (fun b => hd "" (command b)) (resolve s g)
     = Some (toolchain armhf)).
Proof.
  split; [| split; [| split; [| split]]].
  - apply Forall_forall. repeat constructor.
  - apply Forall_forall. repeat constructor.
  - reflexivity.
  - apply Forall_forall. repeat constructor.
  - apply Forall_forall. repeat constructor.
Qed.

End MakefileFacts.

(** ** The build test script *)

Module TestBuildFacts.

Import TestBuild.

Local Open Scope list_scope.

Section Run.

Variable h : host.

Lemma fold_echo (f : string -> string) (names : list string) :
  forall st,
    fold_left (fun st name => echo (f name) st) names st =
    {| PASSED := PASSED st; FAILED := FAILED st;
       FAILED_ARCHS := FAILED_ARCHS st;
       trace := trace st ++ map (fun name => Echo (f name)) names |}.
Proof.
  induction names as [|name names IH]; intros [p f' fa tr]; cbn.
  - now rewrite app_nil_r.
  - rewrite IH. cbn. now rewrite <- app_assoc.
Qed.

Lemma summary_spec (st : state) :
  summary st =
  {| PASSED := PASSED st; FAILED := FAILED st;
     FAILED_ARCHS := FAILED_ARCHS st;
     trace := trace st ++
              map Echo (summary_lines (PASSED st) (FAILED st) (FAILED_ARCHS st)) |}.
Proof.
  destruct st as [p f fa tr].
  unfold summary, summary_lines, echo, act.
  cbn [PASSED FAILED FAILED_ARCHS trace].
  destruct (f >? 0).
  - pose proof (fold_echo (fun arch => ("    - " ++ arch)%string)) as F.
    cbv beta in F. rewrite F. cbn [PASSED FAILED FAILED_ARCHS trace].
    f_equal. rewrite <- !app_assoc. cbn [app map].
    rewrite map_app, map_map. reflexivity.
  - cbn [PASSED FAILED FAILED_ARCHS trace].
    f_equal. rewrite <- !app_assoc. reflexivity.
Qed.

Lemma adds_trans r1 t1 r2 t2 st st' st'' :
  adds r1 t1 st st' -> adds r2 t2 st' st'' ->
  adds (r1 ++ r2) (t1 ++ t2) st st''.
Proof.
  intros (P1 & F1 & A1 & T1) (P2 & F2 & A2 & T2). unfold adds, failures in *.
  rewrite !filter_app, !map_app, !length_app.
  rewrite P2, F2, A2, T2, P1, F1, A1, T1, !app_assoc.
  repeat split; lia.
Qed.

Lemma test_host_adds (st : state) :
  exists tail,
    adds [("host", make h [] Makefile.host_compile)] tail st (test_host h st) /\
    forall a, existsb (builds_arch a) tail = false.
Proof.
  destruct st as [p f fa tr]. unfold test_host, adds, failures.
  destruct (make h [] Makefile.host_compile); cbn;
    eexists; (split; [repeat split; try lia;
                      try (now rewrite ?app_nil_r);
                      rewrite <- !app_assoc; reflexivity |]);
    reflexivity.
Qed.

Lemma test_armhf_adds (st : state) :
  exists tail,
    adds [("armhf", make h [] Makefile.all)] tail st (test_armhf h st) /\
    forall a, existsb (builds_arch a) tail = false.
Proof.
  destruct st as [p f fa tr]. unfold test_armhf, adds, failures.
  destruct (make h [] Makefile.all); cbn;
    eexists; (split; [repeat split; try lia;
                      try (now rewrite ?app_nil_r);
                      rewrite <- !app_assoc; reflexivity |]);
    reflexivity.
Qed.

Lemma test_arch_adds (st : state) (arch : string) :
  exists tail,
    adds (arch_result h arch) tail st (test_arch h st arch) /\
    (forall a, existsb (builds_arch a) tail = true ->
               a = arch /\ command_v h (lookup ARCH_COMPILERS arch) = true) /\
    (command_v h (lookup ARCH_COMPILERS arch) = false ->
     In (Echo (skip_warning arch)) tail).
Proof.
  destruct st as [p f fa tr]. unfold test_arch, arch_result, adds, failures.
  destruct (command_v h (lookup ARCH_COMPILERS arch)) eqn:Found; cbn [negb].
  - destruct (make h _ Makefile.cross_compile); cbn;
      eexists; (split; [repeat split; try lia;
                        try (now rewrite ?app_nil_r);
                        rewrite <- !app_assoc; reflexivity |]);
      (split; [| discriminate]); intros a; cbn;
      rewrite !orb_false_r; intros E; apply String.eqb_eq in E; auto.
  - cbn. eexists.
    split; [repeat split; try lia; try (now rewrite ?app_nil_r);
            rewrite <- !app_assoc; reflexivity |].
    split; [intros a; cbn; discriminate |].
    intros _. cbn. right. left. reflexivity.
Qed.

Lemma loop_adds (order : list string) :
  forall st,
  exists tail,
    adds (flat_map (arch_result h) order) tail st
      (fold_left (test_arch h) order st) /\
    (forall a, existsb (builds_arch a) tail = true ->
               In a order /\ command_v h (lookup ARCH_COMPILERS a) = true) /\
    (forall arch, In arch order ->
       command_v h (lookup ARCH_COMPILERS arch) = false ->
       In (Echo (skip_warning arch)) tail).
Proof.
  induction order as [|arch order IH]; intros st.
  - exists []. cbn. split; [| split].
    + unfold adds, failures. cbn. rewrite !app_nil_r. repeat split; lia.
    + discriminate.
    + contradiction.
  - cbn [fold_left flat_map].
    destruct (test_arch_adds st arch) as (t1 & A1 & B1 & W1).
    destruct (IH (test_arch h st arch)) as (t2 & A2 & B2 & W2).
    exists (t1 ++ t2). split; [| split].
    + eapply adds_trans; eassumption.
    + intros a E. rewrite existsb_app in E. apply orb_true_iff in E.
      destruct E as [E | E].
      * destruct (B1 a E) as [-> Found]. split; [now left | assumption].
      * destruct (B2 a E) as [Hin Found]. split; [now right | assumption].
    + intros a [<- | Hin] Absent; apply in_or_app; [left | right]; auto.
Qed.

(** The whole run: the counters are those of the attempted builds, the
    status is that of the last test, and the trace ends with the summary and
    the final clean. *)
Lemma test_build_spec (order : list string) :
  let st := fst (test_build h order) in
  PASSED st = Z.of_nat (List.length (filter snd (attempted h order))) /\
  FAILED st = Z.of_nat (List.length (failures (attempted h order))) /\
  FAILED_ARCHS st = failures (attempted h order) /\
  snd (test_build h order) = (if FAILED st =? 0 then 0 else 1) /\
  exists before,
    trace st =
      before ++
      map Echo (summary_lines (PASSED st) (FAILED st) (FAILED_ARCHS st)) ++
      [Make [] Makefile.clean] /\
    (forall a, existsb (builds_arch a) before = true ->
               In a order /\ command_v h (lookup ARCH_COMPILERS a) = true) /\
    (forall arch, In arch order ->
       command_v h (lookup ARCH_COMPILERS arch) = false ->
       In (Echo (skip_warning arch)) before).
Proof.
  unfold test_build. cbv zeta. cbn [fst snd].
  match goal with
  | |- context [test_host h ?s] => set (st0 := s)
  end.
  destruct (test_host_adds st0) as (t1 & A1 & B1).
  destruct (test_armhf_adds (test_host h st0)) as (t2 & A2 & B2).
  destruct (loop_adds order (test_armhf h (test_host h st0)))
    as (t3 & A3 & B3 & W3).
  pose proof (adds_trans _ _ _ _ _ _ _ (adds_trans _ _ _ _ _ _ _ A1 A2) A3)
    as (P & F & A & T).
  cbn [app] in P, F, A. fold (attempted h order) in P, F, A.
  set (st3 := fold_left (test_arch h) order (test_armhf h (test_host h st0))) in *.
  rewrite summary_spec. cbn [PASSED FAILED FAILED_ARCHS trace act].
  change (PASSED st0) with 0 in P. change (FAILED st0) with 0 in F.
  change (FAILED_ARCHS st0) with (@nil string) in A.
  rewrite Z.add_0_l in P, F. cbn [app] in A.
  split; [exact P |]. split; [exact F |]. split; [exact A |].
  split; [reflexivity |].
  exists (trace st0 ++ (t1 ++ t2) ++ t3).
  split; [rewrite T, <- !app_assoc; reflexivity |].
  split.
  - intros a E. apply B3.
    rewrite !existsb_app, B1, B2 in E.
    replace (existsb (builds_arch a) (trace st0)) with false in E
      by reflexivity.
    exact E.
  - intros arch Hin Absent. apply in_or_app. right. apply in_or_app. right.
    now apply W3.
Qed.

End Run.

Lemma lines_of_app (a b : list action) :
  lines_of (a ++ b) = lines_of a ++ lines_of b.
Proof. apply flat_map_app. Qed.

Lemma lines_of_echo (lines : list string) : lines_of (map Echo lines) = lines.
Proof.
  unfold lines_of.
  induction lines as [|l lines IH]; cbn; [reflexivity | now rewrite IH].
Qed.

Lemma lines_of_in (line : string) (actions : list action) :
  In (Echo line) actions -> In line (lines_of actions).
Proof.
  intros H. apply in_flat_map. exists (Echo line). split; [assumption |].
  now left.
Qed.

Lemma no_build_in_echo (a : string) (lines : list string) :
  existsb (builds_arch a) (map Echo lines) = false.
Proof. induction lines as [|l lines IH]; cbn; [reflexivity | exact IH]. Qed.

Lemma failures_none (results : list (string * bool)) :
  failures results = [] <-> forallb snd results = true.
Proof.
  unfold failures. induction results as [|[name ok] results IH]; cbn.
  - tauto.
  - destruct ok; cbn; [exact IH |]. split; discriminate.
Qed.

Lemma failures_in (results : list (string * bool)) (name : string) :
  In name (failures results) <-> In (name, false) results.
Proof.
  unfold failures. rewrite in_map_iff. split.
  - intros ([n ok] & <- & H). apply filter_In in H. destruct H as [H E].
    cbn in *. now destruct ok.
  - intros H. exists (name, false). split; [reflexivity |].
    apply filter_In. auto.
Qed.

Lemma arch_result_names (h : host) (order : list string) (name : string)
    (ok : bool) :
  In (name, ok) (flat_map (arch_result h) order) ->
  In name order /\ command_v h (lookup ARCH_COMPILERS name) = true.
Proof.
  intros H. apply in_flat_map in H. destruct H as (arch & Hin & H).
  unfold arch_result in H.
  destruct (command_v h (lookup ARCH_COMPILERS arch)) eqn:Found;
    [| contradiction].
  destruct H as [H | []]. injection H as -> _. auto.
Qed.

Lemma skipped_adds_nothing (h : host) (arch : string) (order : list string) :
  command_v h (lookup ARCH_COMPILERS arch) = false ->
  flat_map (arch_result h) (remove string_dec arch order)
  = flat_map (arch_result h) order.
Proof.
  intros Absent. induction order as [|a order IH]; cbn; [reflexivity |].
  destruct (string_dec arch a) as [<- | Hne].
  - rewrite IH. unfold arch_result at 2. now rewrite Absent.
  - cbn. now rewrite IH.
Qed.

Lemma keys_are_cross_architectures (arch : string) :
  In arch keys -> arch <> "host" /\ arch <> "armhf".
Proof.
  cbn. intros H.
  repeat (destruct H as [<- | H]; [split; discriminate |]). contradiction.
Qed.

(** C2, the claim as stated: an architecture the script tests is skipped,
    not failed, when its compiler is absent.  On a machine with make and the
    native compiler only, the ARM HF compiler is absent; the script still
    attempts the ARM HF build, counts it as failed, lists it in the summary
    and exits with status 1. *)
Lemma absent_armhf_toolchain_is_a_failure :
  let h := host_of native_only in
  let st := fst (test_build h keys) in
  command_v h (Makefile.toolchain Makefile.armhf) = false /\
  In (Make [] Makefile.all) (trace st) /\
  PASSED st = 1 /\ FAILED st = 1 /\ FAILED_ARCHS st = ["armhf"] /\
  In (bullet "armhf") (echoed st) /\
  snd (test_build h keys) = 1.
Proof.
  vm_compute. repeat split; auto 30.
Qed.

(** C2, amended: for every architecture of the [ARCH_COMPILERS] table
    (arm64, armel, riscv64, amd64, i386) whose compiler [command -v] does
    not find, whatever the order in which the table is enumerated, the
    script prints the skip warning and attempts no build for it; the
    architecture is in neither count and not among the failed names, and
    the counts, the failed names and the exit status are those of a run
    whose table lacks the architecture. *)
Theorem absent_toolchain_is_skipped
    (h : host) (order : list string) (arch : string) :
  Permutation order keys ->
  In arch keys ->
  command_v h (lookup ARCH_COMPILERS arch) = false ->
  let st := fst (test_build h order) in
  let without := test_build h (remove string_dec arch order) in
  In (skip_warning arch) (echoed st) /\
  existsb (builds_arch arch) (trace st) = false /\
  ~ In arch (map fst (attempted h order)) /\
  ~ In arch (FAILED_ARCHS st) /\
  PASSED st = PASSED (fst without) /\
  FAILED st = FAILED (fst without) /\
  FAILED_ARCHS st = FAILED_ARCHS (fst without) /\
  snd (test_build h order) = snd without.
Proof.
  intros Perm Hkey Absent. cbv zeta.
  assert (Hin : In arch order)
    by (eapply Permutation_in; [apply Permutation_sym |]; eassumption).
  destruct (keys_are_cross_architectures arch Hkey) as [Nhost Narmhf].
  pose proof (test_build_spec h order) as (P & F & A & S & before & T & B & W).
  pose proof (test_build_spec h (remove string_dec arch order))
    as (P' & F' & A' & S' & _).
  unfold attempted in P', F', A'.
  rewrite skipped_adds_nothing in P', F', A' by assumption.
  fold (attempted h order) in P', F', A'.
  assert (Not_attempted : ~ In arch (map fst (attempted h order))).
  { intros H. apply in_map_iff in H. destruct H as ([name ok] & E & H).
    cbn in E. subst name. destruct H as [H | [H | H]].
    - injection H as H _. congruence.
    - injection H as H _. congruence.
    - apply arch_result_names in H. destruct H as [_ H]. congruence. }
  split; [| split; [| split; [| split; [| split; [| split; [| split]]]]]].
  - unfold echoed. rewrite T, lines_of_app. apply in_or_app. left.
    apply lines_of_in. now apply W.
  - rewrite T, !existsb_app, no_build_in_echo. cbn. rewrite !orb_false_r.
    destruct (existsb (builds_arch arch) before) eqn:E; [| reflexivity].
    destruct (B arch E) as [_ Found]. congruence.
  - exact Not_attempted.
  - rewrite A. intros H. apply failures_in in H. apply Not_attempted.
    apply in_map_iff. now exists (arch, false).
  - congruence.
  - congruence.
  - congruence.
  - rewrite S, S'. now rewrite F, F'.
Qed.

Lemma absent_toolchain_is_skipped_witness :
  let h := host_of native_only in
  let st := fst (test_build h keys) in
  let without := test_build h (remove string_dec "riscv64" keys) in
  In (skip_warning "riscv64") (echoed st) /\
  existsb (builds_arch "riscv64") (trace st) = false /\
  ~ In "riscv64" (map fst (attempted h keys)) /\
  ~ In "riscv64" (FAILED_ARCHS st) /\
  PASSED st = PASSED (fst without) /\
  FAILED st = FAILED (fst without) /\
  FAILED_ARCHS st = FAILED_ARCHS (fst without) /\
  snd (test_build h keys) = snd without.
Proof.
  apply (absent_toolchain_is_skipped (host_of native_only) keys "riscv64").
  - apply Permutation_refl.
  - cbn. auto.
  - reflexivity.
Defined.

(** C3: the script exits with status 0 exactly when every build it
    attempted (the host build, the ARM HF build and the build of each
    architecture whose compiler was found) succeeded, and with status 1
    otherwise; the failed names it collects are those of the failed builds,
    in order, and when there is one the summary ends with the heading
    "Failed architectures:" followed by one line per failed name. *)
Theorem exit_status_reflects_failures (h : host) (order : list string) :
  let st := fst (test_build h order) in
  let status := snd (test_build h order) in
  (status = 0 <-> forallb snd (attempted h order) = true) /\
  (status = 0 \/ status = 1) /\
  FAILED_ARCHS st = failures (attempted h order) /\
  (status <> 0 ->
   exists before,
     echoed st =
     before ++ "  Failed architectures:" ::
     map bullet (failures (attempted h order)) ++ [rule]) /\
  (forall name, In (name, false) (attempted h order) ->
     status <> 0 /\ In (bullet name) (echoed st)).
Proof.
  cbv zeta.
  pose proof (test_build_spec h order) as (P & F & A & S & before & T & _).
  assert (Zero : (FAILED (fst (test_build h order)) =? 0) = true <->
                 forallb snd (attempted h order) = true).
  { rewrite <- failures_none, F, Z.eqb_eq.
    destruct (failures (attempted h order)); cbn [List.length]; split;
      try reflexivity; try discriminate; lia. }
  assert (Summary : snd (test_build h order) <> 0 ->
     exists before',
       echoed (fst (test_build h order)) =
       before' ++ "  Failed architectures:" ::
       map bullet (failures (attempted h order)) ++ [rule]).
  { intros Hs. rewrite S in Hs.
    destruct (FAILED (fst (test_build h order)) =? 0) eqn:E;
      [congruence |].
    apply Z.eqb_neq in E.
    assert (Pos : (FAILED (fst (test_build h order)) >? 0) = true)
      by (apply Z.gtb_lt; lia).
    unfold echoed. rewrite T, !lines_of_app, lines_of_echo.
    unfold summary_lines. rewrite Pos, A. cbn [lines_of flat_map app].
    eexists (lines_of before ++ [_; _; _; _; _; _; _]).
    rewrite <- !app_assoc. cbn [app]. reflexivity. }
  split; [| split; [| split; [| split]]].
  - rewrite S, <- Zero.
    destruct (FAILED (fst (test_build h order)) =? 0); split; congruence.
  - rewrite S. destruct (FAILED (fst (test_build h order)) =? 0); auto.
  - exact A.
  - exact Summary.
  - intros name Hin.
    assert (Hs : snd (test_build h order) <> 0).
    { rewrite S. intros Hz.
      assert (E : (FAILED (fst (test_build h order)) =? 0) = true)
        by (destruct (FAILED (fst (test_build h order)) =? 0);
            [reflexivity | discriminate Hz]).
      apply Zero in E. rewrite forallb_forall in E.
      specialize (E _ Hin). discriminate E. }
    split; [exact Hs |].
    destruct (Summary Hs) as (before' & ->).
    apply in_or_app. right. right. apply in_or_app. left.
    apply in_map. now apply failures_in.
Qed.

(** A run on a machine where only the native and the riscv64 compilers
    work: two builds pass, ARM HF fails, the status is 1. *)
Example exit_status_reflects_failures_example :
  let m := {| Makefile.installed := fun program =>
                String.eqb program "make" || String.eqb program "g++" ||
                String.eqb program "riscv64-linux-gnu-g++";
              Makefile.compiles := fun _ => true |} in
  let run := test_build (host_of m) keys in
  PASSED (fst run) = 2 /\ FAILED (fst run) = 1 /\
  FAILED_ARCHS (fst run) = ["armhf"] /\ snd run = 1.
Proof. vm_compute. auto. Qed.

End TestBuildFacts.

(** ** The deploy script *)

Module DeployFacts.

Import Deploy.

Local Open Scope list_scope.

Lemma bind_ret_l {A B : Type} (a : A) (k : A -> sh B) : bind (ret a) k = k a.
Proof. unfold bind, ret. now destruct (k a). Qed.

Lemma bind_exit {A B : Type} (done : list action) (status : Z) (k : A -> sh B) :
  bind (done, Exit status) k = (done, Exit status).
Proof. reflexivity. Qed.

(** The cases of the six required parameters: the first one that is
    missing or empty ends the script, otherwise the script goes on with
    their values. *)
Ltac by_parameters args :=
  destruct args
    as [|[|?c ?r] [|[|?c ?r] [|[|?c ?r] [|[|?c ?r] [|[|?c ?r] [|[|?c ?r] ?rest]]]]]].

Section Run.

Variable w : world.

Lemma deploy_cases (args : list string) :
  (exists message, deploy w args = ([Complain message], Exit 1)) \/
  deploy w args =
    (prerequisites w (nth 2 args "") ;;;
     remote_steps w (nth 0 args "") (nth 1 args "") (nth 2 args "")
       (nth 3 args "") (nth 4 args "") (nth 5 args "")).
Proof.
  by_parameters args; try (left; eexists; reflexivity).
  right. unfold deploy. cbn [required nth_error Nat.sub nth].
  now rewrite !bind_ret_l.
Qed.

Lemma deploy_parsed (args : list string) :
  well_formed args = true ->
  deploy w args =
    (prerequisites w (nth 2 args "") ;;;
     remote_steps w (nth 0 args "") (nth 1 args "") (nth 2 args "")
       (nth 3 args "") (nth 4 args "") (nth 5 args "")).
Proof.
  intros H. destruct (deploy_cases args) as [[message E] | E]; [| exact E].
  exfalso. revert H E. by_parameters args; intros H E; try discriminate H.
  unfold deploy in E. cbn [required nth_error Nat.sub] in E.
  rewrite !bind_ret_l in E.
  unfold prerequisites, remote_steps, log_error, log_info, echo, exit, ret,
    run, run_or_true, bind in E.
  repeat match type of E with
         | context [if ?b then _ else _] => destruct b
         end; discriminate E.
Qed.

Lemma prerequisites_missing_artifact (BINARY : string) :
  is_file w BINARY = false ->
  prerequisites w BINARY =
  ([Echo (RED ++ "[ERROR]" ++ NC ++ " " ++ "Binary file '" ++ BINARY ++
          "' not found!")%string;
    Echo (GREEN ++ "[INFO]" ++ NC ++ " " ++
          "Run 'make' first to build the binary.")%string],
   Exit 1).
Proof. intros H. unfold prerequisites. rewrite H. reflexivity. Qed.

Lemma prerequisites_met (BINARY : string) :
  is_file w BINARY = true -> command_v w "sshpass" = true ->
  prerequisites w BINARY = ret tt.
Proof. intros H1 H2. unfold prerequisites. rewrite H1, H2. reflexivity. Qed.

End Run.

(** C4: when the artifact path (the third parameter) names no regular
    file, the script exits with a non-zero status and runs no external
    command at all, so nothing reaches the remote host; with six parameters
    given, all it does is print the two lines of the error and exit with
    status 1. *)
Theorem missing_artifact_aborts_before_remote (w : world) (args : list string) :
  is_file w (artifact_path args) = false ->
  exit_status (deploy w args) <> 0 /\
  commands (deploy w args) = [] /\
  (well_formed args = true ->
   deploy w args =
   ([Echo (RED ++ "[ERROR]" ++ NC ++ " " ++ "Binary file '" ++
           artifact_path args ++ "' not found!")%string;
     Echo (GREEN ++ "[INFO]" ++ NC ++ " " ++
           "Run 'make' first to build the binary.")%string],
    Exit 1)).
Proof.
  intros Missing. unfold artifact_path in *.
  assert (E : (exists message, deploy w args = ([Complain message], Exit 1)) \/
              deploy w args =
              ([Echo (RED ++ "[ERROR]" ++ NC ++ " " ++ "Binary file '" ++
                      nth 2 args "" ++ "' not found!")%string;
                Echo (GREEN ++ "[INFO]" ++ NC ++ " " ++
                      "Run 'make' first to build the binary.")%string],
               Exit 1)).
  { destruct (deploy_cases w args) as [E | E]; [now left | right].
    rewrite E, prerequisites_missing_artifact by assumption. reflexivity. }
  split; [| split].
  - destruct E as [[message ->] | ->]; discriminate.
  - destruct E as [[message ->] | ->]; reflexivity.
  - intros W. rewrite (deploy_parsed w args W).
    rewrite prerequisites_missing_artifact by assumption. reflexivity.
Qed.

Lemma missing_artifact_aborts_before_remote_witness :
  let w := {| is_file := fun _ => false;
              command_v := fun _ => true;
              status_of := fun _ => 0 |} in
  is_file w (artifact_path sample_args) = false /\
  exit_status (deploy w sample_args) = 1 /\
  fst (deploy w sample_args) =
    [ Echo (RED ++ "[ERROR]" ++ NC ++ " " ++
            "Binary file 'firmware.bin' not found!")%string;
      Echo (GREEN ++ "[INFO]" ++ NC ++ " " ++
            "Run 'make' first to build the binary.")%string ].
Proof.
  cbv zeta. split; [reflexivity |].
  pose proof (missing_artifact_aborts_before_remote
                {| is_file := fun _ => false;
                   command_v := fun _ => true;
                   status_of := fun _ => 0 |} sample_args eq_refl)
    as (_ & _ & Shape).
  rewrite (Shape eq_refl). split; reflexivity.
Defined.

(** C5: with the local prerequisites met, the script always runs the
    cleanup command and then the upload, whatever status the cleanup
    returns; the commands it runs are, in this order, cleanup, upload,
    chmod and gdbserver, up to and including the first of the last three
    that fails; the exit status is then the status of that command, which
    is not 0, and the status of gdbserver otherwise. *)
Theorem remote_steps_in_order (w : world) (args : list string) :
  well_formed args = true ->
  is_file w (artifact_path args) = true ->
  command_v w "sshpass" = true ->
  let DEST_IP := nth 0 args "" in
  let DEBUG_PORT := nth 1 args "" in
  let BINARY := nth 2 args "" in
  let DEST_DIR := nth 3 args "" in
  let USER := nth 4 args "" in
  let PASS := nth 5 args "" in
  let cleanup := cleanup_command DEST_IP BINARY DEST_DIR USER PASS in
  let upload := upload_command DEST_IP BINARY DEST_DIR USER PASS in
  let chmod := chmod_command DEST_IP BINARY DEST_DIR USER PASS in
  let gdbserver :=
    gdbserver_command DEST_IP DEBUG_PORT BINARY DEST_DIR USER PASS in
  (exists rest, commands (deploy w args) = cleanup :: upload :: rest) /\
  commands (deploy w args) =
    (if negb (status_of w upload =? 0) then [cleanup; upload]
     else if negb (status_of w chmod =? 0) then [cleanup; upload; chmod]
     else [cleanup; upload; chmod; gdbserver]) /\
  exit_status (deploy w args) =
    (if negb (status_of w upload =? 0) then status_of w upload
     else if negb (status_of w chmod =? 0) then status_of w chmod
     else status_of w gdbserver) /\
  (In gdbserver (commands (deploy w args)) ->
   status_of w upload = 0 /\ status_of w chmod = 0).
Proof.
  intros W Present Tool. cbv zeta. unfold artifact_path in Present.
  rewrite (deploy_parsed w args W).
  rewrite prerequisites_met, bind_ret_l by assumption.
  unfold remote_steps, run, run_or_true, log_info, echo, bind, commands,
    exit_status.
  destruct (Z.eqb_spec
              (status_of w (upload_command (nth 0 args "") (nth 2 args "")
                              (nth 3 args "") (nth 4 args "") (nth 5 args ""))) 0)
    as [U | U];
  destruct (Z.eqb_spec
              (status_of w (chmod_command (nth 0 args "") (nth 2 args "")
                              (nth 3 args "") (nth 4 args "") (nth 5 args ""))) 0)
    as [C | C];
  destruct (Z.eqb_spec
              (status_of w (gdbserver_command (nth 0 args "") (nth 1 args "")
                              (nth 2 args "") (nth 3 args "") (nth 4 args "")
                              (nth 5 args ""))) 0)
    as [G | G];
  cbn [negb fst snd app flat_map];
  (split; [eexists; reflexivity |]);
  (split; [reflexivity |]);
  (split; [congruence || reflexivity |]);
  try (intros _; split; assumption);
  cbn; intros H;
  repeat (destruct H as [H | H]; [discriminate H |]); contradiction.
Qed.

Lemma remote_steps_in_order_witness :
  status_of cleanup_fails
    (cleanup_command "192.168.1.100" "firmware.bin" "/home/debian" "debian"
       "password") = 255 /\
  commands (deploy cleanup_fails sample_args) =
    [ cleanup_command "192.168.1.100" "firmware.bin" "/home/debian" "debian"
        "password";
      upload_command "192.168.1.100" "firmware.bin" "/home/debian" "debian"
        "password";
      chmod_command "192.168.1.100" "firmware.bin" "/home/debian" "debian"
        "password";
      gdbserver_command "192.168.1.100" "6666" "firmware.bin" "/home/debian"
        "debian" "password" ] /\
  exit_status (deploy cleanup_fails sample_args) = 0.
Proof.
  split; [reflexivity |].
  pose proof (remote_steps_in_order cleanup_fails sample_args
                eq_refl eq_refl eq_refl) as H.
  cbv zeta in H. destruct H as (_ & Hc & Hs & _).
  split; [exact Hc | exact Hs].
Defined.

End DeployFacts.

(** ** More on the logger: file names, time stamps, the sink *)

Module LoggerMore.

Import Logger.

Lemma strrchr_absent (s : string) (c : ascii) :
  contains c s = false -> strrchr s c = None.
Proof.
  induction s as [|a s IH]; cbn [contains strrchr]; [reflexivity |].
  intros H. apply orb_false_iff in H. destruct H as [Ha Hs].
  now rewrite (IH Hs), Ha.
Qed.

(** The last occurrence of a character in front of a tail that lacks it. *)
Lemma strrchr_last (before after : string) (c : ascii) :
  contains c after = false ->
  strrchr (before ++ String c after) c = Some (String c after).
Proof.
  intros H. induction before as [|a before IH]; cbn [append strrchr].
  - now rewrite (strrchr_absent _ _ H), Ascii.eqb_refl.
  - now rewrite IH.
Qed.

(** X1: joining any directory text, a slash and a name without slash, and
    taking [getFilename], gives the name back, whatever else the name
    holds (backslashes included). *)
Theorem getFilename_of_joined_path (directory name : string) :
  contains "/" name = false ->
  getFilename (directory ++ "/" ++ name) = name.
Proof.
  intros H. unfold getFilename.
  change ("/" ++ name) with (String "/" name).
  now rewrite strrchr_last.
Qed.

Lemma getFilename_of_joined_path_witness :
  getFilename ("/home/dev/project/src" ++ "/" ++ "odd\name.cpp")
  = "odd\name.cpp".
Proof.
  apply (getFilename_of_joined_path "/home/dev/project/src" "odd\name.cpp").
  reflexivity.
Defined.

(** X2: in a path without any slash the backslash is the separator: the
    part after the last backslash is returned, and a path with neither
    character is returned whole. *)
Theorem getFilename_backslash_fallback (directory name : string) :
  contains "/" directory = false ->
  contains "/" name = false ->
  contains "\" name = false ->
  getFilename (directory ++ "\" ++ name) = name /\
  getFilename name = name.
Proof.
  intros Hd Hn Hb. unfold getFilename. split.
  - change ("\" ++ name) with (String "\" name).
    rewrite strrchr_absent
      by (rewrite contains_app; cbn [contains]; rewrite Hd, Hn; reflexivity).
    now rewrite strrchr_last.
  - now rewrite !strrchr_absent.
Qed.

Lemma getFilename_backslash_fallback_witness :
  getFilename ("C:\proj\src" ++ "\" ++ "main.cpp") = "main.cpp" /\
  getFilename "main.cpp" = "main.cpp".
Proof.
  apply (getFilename_backslash_fallback "C:\proj\src" "main.cpp");
    reflexivity.
Defined.







Lemma digit_char_injective (a b : Z) :
  0 <= a < 10 -> 0 <= b < 10 -> digit_char a = digit_char b -> a = b.
Proof.
  intros Ha Hb E. apply (f_equal nat_of_ascii) in E. unfold digit_char in E.
  rewrite !nat_ascii_embedding in E by lia. lia.
Qed.

Lemma two_digits_injective (a b : Z) :
  0 <= a < 100 -> 0 <= b < 100 ->
  digit_char (a / 10) = digit_char (b / 10) ->
  digit_char (a mod 10) = digit_char (b mod 10) -> a = b.
Proof.
  intros Ha Hb Ht Hu.
  apply digit_char_injective in Ht;
    [| split; [apply Z.div_pos | apply Z.div_lt_upper_bound]; lia ..].
  apply digit_char_injective in Hu; [| apply Z.mod_pos_bound; lia ..].
  rewrite (Z.div_mod a 10), (Z.div_mod b 10) by lia. congruence.
Qed.

Lemma getTimestamp_injective (t u : tm) :
  valid_tm t -> valid_tm u -> getTimestamp t = getTimestamp u -> t = u.
Proof.
  intros (Ty & Tmo & Td & Th & Tmi & Ts) (Uy & Umo & Ud & Uh & Umi & Us) E.
  unfold getTimestamp in E.
  rewrite !fmt_d_nonneg, !fmt_u_4, !fmt_02d_two in E by lia.
  cbn [append] in E.
  injection E as Y3 Y2 Y1 Y0 M1 M0 D1 D0 H1 H0 N1 N0 S1 S0.
  assert (Emo : tm_mon t + 1 = tm_mon u + 1)
    by (apply two_digits_injective; auto; lia).
  assert (Ed : tm_mday t = tm_mday u)
    by (apply two_digits_injective; auto; lia).
  assert (Eh : tm_hour t = tm_hour u)
    by (apply two_digits_injective; auto; lia).
  assert (Emi : tm_min t = tm_min u)
    by (apply two_digits_injective; auto; lia).
  assert (Es : tm_sec t = tm_sec u)
    by (apply two_digits_injective; auto; lia).
  assert (Ey : tm_year t + 1900 = tm_year u + 1900).
  { set (a := tm_year t + 1900) in *. set (b := tm_year u + 1900) in *.
    assert (A1 : 100 <= a / 10 < 1000)
      by (split; [apply Z.div_le_lower_bound | apply Z.div_lt_upper_bound]; lia).
    assert (B1 : 100 <= b / 10 < 1000)
      by (split; [apply Z.div_le_lower_bound | apply Z.div_lt_upper_bound]; lia).
    assert (A2 : 10 <= a / 10 / 10 < 100)
      by (split; [apply Z.div_le_lower_bound | apply Z.div_lt_upper_bound]; lia).
    assert (B2 : 10 <= b / 10 / 10 < 100)
      by (split; [apply Z.div_le_lower_bound | apply Z.div_lt_upper_bound]; lia).
    assert (E2 : a / 10 / 10 = b / 10 / 10).
    { apply two_digits_injective; auto; lia. }
    apply digit_char_injective in Y1; [| apply Z.mod_pos_bound; lia ..].
    apply digit_char_injective in Y0; [| apply Z.mod_pos_bound; lia ..].
    apply digit_char_injective in Y2; [| apply Z.mod_pos_bound; lia ..].
    rewrite (Z.div_mod a 10), (Z.div_mod b 10) by lia.
    rewrite (Z.div_mod (a / 10) 10), (Z.div_mod (b / 10) 10) by lia.
    congruence. }
  destruct t, u. cbn in *. f_equal; lia.
Qed.

(** X4: two different valid times never share a time stamp: the stamp
    loses nothing of the six fields. *)
Theorem getTimestamp_distinguishes_times (t u : tm) :
  valid_tm t -> valid_tm u -> t <> u -> getTimestamp t <> getTimestamp u.
Proof.
  intros Vt Vu Hne E. apply Hne. now apply getTimestamp_injective.
Qed.

Lemma getTimestamp_distinguishes_times_witness :
  getTimestamp (mkTm 125 11 3 13 23 56) <> getTimestamp (mkTm 125 11 3 13 23 57).
Proof.
  apply (getTimestamp_distinguishes_times (mkTm 125 11 3 13 23 56)
           (mkTm 125 11 3 13 23 57));
    [unfold valid_tm; cbn; lia | unfold valid_tm; cbn; lia | discriminate].
Defined.

Lemma FILE_eqb_neq (f g : FILE) : f <> g -> FILE_eqb f g = false.
Proof.
  destruct f, g; cbn; try reflexivity; try congruence.
  intros H. apply Nat.eqb_neq. congruence.
Qed.

(** X5: after [setOutput] a record goes to the new stream, with the text
    it would have had on the old one, and no other stream receives a byte;
    the threshold is untouched. *)
Theorem setOutput_redirects_records
    (self : Logger) (sink other : FILE) now level func file line msg :
  other <> sink ->
  written sink (log (setOutput self sink) now level func file line msg)
  = written (output_ self) (log self now level func file line msg) /\
  written other (log (setOutput self sink) now level func file line msg) = "" /\
  minLevel_ (setOutput self sink) = minLevel_ self.
Proof.
  intros Hne. unfold log, setOutput. cbn [minLevel_ output_].
  destruct (level <? minLevel_ self); [repeat split |].
  cbn [written]. rewrite !LoggerFacts.FILE_eqb_refl.
  rewrite (FILE_eqb_neq sink other) by congruence.
  repeat split.
Qed.

Lemma setOutput_redirects_records_witness :
  written stderr
    (log (setOutput Logger_init stderr) (mkTm 125 11 3 13 23 56) LVL_ERROR
       "f" "a/b.cpp" 9 "uname() failed")
  = "2025-12-03 13:23:56 ERROR [f] [b.cpp:9] : uname() failed" ++ newline /\
  written stdout
    (log (setOutput Logger_init stderr) (mkTm 125 11 3 13 23 56) LVL_ERROR
       "f" "a/b.cpp" 9 "uname() failed") = "".
Proof.
  pose proof (setOutput_redirects_records Logger_init stderr stdout
                (mkTm 125 11 3 13 23 56) LVL_ERROR "f" "a/b.cpp" 9
                "uname() failed" ltac:(discriminate)) as (Same & Silent & _).
  split; [rewrite Same; reflexivity | exact Silent].
Defined.

End LoggerMore.

(** ** More on the program: build labels, the loop, the signal *)

Module ProgramFacts.

Import Logger MainProgram Program Makefile.

Local Open Scope list_scope.










Section AnyLogger.

Variable DEBUG : bool.
Variable clock : Z -> Z -> tm.
Variable logger : Logger.

Lemma loop_result (observed : list bool) :
  forall counter effects final,
    loop DEBUG clock logger observed counter = Some (effects, final) ->
    exists k : nat,
      final = counter + Z.of_nat k /\
      firstn k observed = repeat true k /\
      nth_error observed k = Some false.
Proof.
  induction observed as [|running later IH]; intros counter effects final H;
    cbn [loop] in H; [discriminate |].
  destruct running.
  - destruct (INT_MAX <=? counter); [discriminate |].
    unfold loop_body in H.
    destruct (loop DEBUG clock logger later (counter + 1))
      as [[rest n]|] eqn:E; [| discriminate].
    injection H as _ <-.
    destruct (IH _ _ _ E) as (k & -> & Hfirst & Hnth).
    exists (S k). cbn [firstn repeat nth_error]. rewrite Hfirst.
    repeat split; [lia | assumption].
  - injection H as _ <-. exists O. cbn. repeat split. lia.
Qed.

Lemma loop_never_stops_alone (observed : list bool) :
  forall counter,
    forallb (fun running => running) observed = true ->
    loop DEBUG clock logger observed counter = None.
Proof.
  induction observed as [|running later IH]; intros counter H;
    cbn [loop]; [reflexivity |].
  cbn in H. apply andb_true_iff in H. destruct H as [-> Hl].
  destruct (INT_MAX <=? counter); [reflexivity |].
  unfold loop_body. now rewrite IH.
Qed.

End AnyLogger.

(** X8: the loop has no way out but the flag.  When [mainLoop] returns,
    the count it reports is the number of reads that found the flag set
    before the first read that found it clear; and while every read finds
    the flag set it does not return.  This holds for every build and every
    logger setting. *)
Theorem mainLoop_exits_only_on_flag
    (DEBUG : bool) (clock : Z -> Z -> tm) (logger : Logger)
    (observed : list bool) :
  (forall effects count,
     mainLoop DEBUG clock logger observed = Some (effects, count) ->
     exists k : nat,
       count = Z.of_nat k /\ firstn k observed = repeat true k /\
       nth_error observed k = Some false) /\
  (forallb (fun running => running) observed = true ->
   mainLoop DEBUG clock logger observed = None).
Proof.
  split.
  - intros effects count H. unfold mainLoop in H.
    destruct (loop DEBUG clock logger observed 0) as [[run n]|] eqn:E;
      [| discriminate].
    injection H as _ <-.
    destruct (loop_result _ _ _ _ _ _ _ E) as (k & -> & Hfirst & Hnth).
    exists k. auto.
  - intros H. unfold mainLoop.
    now rewrite loop_never_stops_alone.
Qed.

Example mainLoop_exits_only_on_flag_example :
  option_map snd
    (mainLoop true (fun _ _ => mkTm 125 11 3 13 23 56) Logger_init
       [true; true; true; false; true]) = Some 3 /\
  mainLoop true (fun _ _ => mkTm 125 11 3 13 23 56) Logger_init
    [true; true; true] = None.
Proof. split; reflexivity. Qed.

Lemma flushes_app (a b : list event) :
  flushes (a ++ b) = (flushes a + flushes b)%nat.
Proof.
  induction a as [|e a IH]; cbn [app flushes]; [reflexivity |].
  destruct e; rewrite IH; reflexivity.
Qed.

Lemma slept_app (a b : list event) : slept (a ++ b) = slept a + slept b.
Proof.
  induction a as [|e a IH]; cbn [app slept]; [reflexivity |].
  destruct e; rewrite IH; lia.
Qed.

Lemma iteration_slept (DEBUG : bool) (clock : Z -> Z -> tm) (counter : Z) :
  slept (iteration DEBUG clock counter) = Config.LOOP_DELAY_US.
Proof.
  unfold iteration, counter_message. cbn [slept]. rewrite slept_app.
  destruct DEBUG; [reflexivity |].
  destruct (counter mod 10 =? 0); reflexivity.
Qed.

Lemma iteration_flushes (DEBUG : bool) (clock : Z -> Z -> tm) (counter : Z) :
  flushes (iteration DEBUG clock counter) =
  if DEBUG then 1%nat else if counter mod 10 =? 0 then 1%nat else 0%nat.
Proof.
  unfold iteration, counter_message. cbn [flushes]. rewrite flushes_app.
  destruct DEBUG; [reflexivity |].
  destruct (counter mod 10 =? 0); reflexivity.
Qed.

Lemma iterations_slept (DEBUG : bool) (clock : Z -> Z -> tm) (n : nat) :
  forall from,
    slept (flat_map (iteration DEBUG clock) (counters from n))
    = Z.of_nat n * Config.LOOP_DELAY_US.
Proof.
  induction n as [|n IH]; intros from; cbn [counters flat_map];
    [reflexivity |].
  rewrite slept_app, iteration_slept, IH. lia.
Qed.

Lemma iterations_flushes_debug (clock : Z -> Z -> tm) (n : nat) :
  forall from,
    flushes (flat_map (iteration true clock) (counters from n)) = n.
Proof.
  induction n as [|n IH]; intros from; cbn [counters flat_map];
    [reflexivity |].
  rewrite flushes_app, iteration_flushes, IH. reflexivity.
Qed.

(** The multiples of ten among [n] consecutive counters. *)
Lemma iterations_flushes_release (clock : Z -> Z -> tm) (n : nat) :
  forall from,
    0 <= from ->
    flushes (flat_map (iteration false clock) (counters from n))
    = Z.to_nat ((from + Z.of_nat n + 9) / 10 - (from + 9) / 10).
Proof.
  induction n as [|n IH]; intros from H; cbn [counters flat_map].
  - cbn [flushes]. replace (from + Z.of_nat 0 + 9) with (from + 9) by lia.
    lia.
  - rewrite flushes_app, iteration_flushes, IH by lia.
    replace (from + 1 + Z.of_nat n + 9) with (from + Z.of_nat (S n) + 9)
      by lia.
    destruct (Z.eqb_spec (from mod 10) 0) as [E | E];
      Z.div_mod_to_equations; lia.
Qed.

(** X9: a run of [n] iterations sleeps [n] times the fixed interval of
    500 ms in all, and completes [n + 2] records in a debug build (the
    start line, one counter line per iteration, the report) and
    [(n + 9) / 10 + 2] in a release build, where only the counters 0, 10,
    20, ... are shown. *)
Theorem mainLoop_output_volume
    (DEBUG : bool) (clock : Z -> Z -> tm) (n : nat) (later : list bool)
    (effects : list event) (count : Z) :
  Z.of_nat n <= INT_MAX ->
  mainLoop DEBUG clock (configured_logger DEBUG)
    (repeat true n ++ false :: later) = Some (effects, count) ->
  slept effects = Z.of_nat n * 500000 /\
  flushes effects =
    (if DEBUG then n + 2 else Z.to_nat ((Z.of_nat n + 9) / 10) + 2)%nat.
Proof.
  intros Hmax H. unfold mainLoop in H.
  rewrite MainProgramFacts.loop_runs in H by lia.
  injection H as <- _. unfold LOG.
  rewrite !slept_app, !flushes_app, iterations_slept.
  split.
  - destruct DEBUG; cbn; unfold Config.LOOP_DELAY_US; lia.
  - destruct DEBUG.
    + rewrite iterations_flushes_debug. cbn. lia.
    + rewrite iterations_flushes_release by lia. cbn.
      replace ((0 + 9) / 10) with 0 by reflexivity.
      replace (0 + Z.of_nat n + 9) with (Z.of_nat n + 9) by lia. lia.
Qed.

Lemma mainLoop_output_volume_witness :
  exists effects,
    mainLoop false (fun _ _ => mkTm 125 11 3 13 23 56)
      (configured_logger false) (repeat true 25 ++ [false])
    = Some (effects, 25) /\
    slept effects = 12500000 /\ flushes effects = 5%nat.
Proof.
  eexists. split; [reflexivity |].
  refine (mainLoop_output_volume false (fun _ _ => mkTm 125 11 3 13 23 56)
            25 [] _ 25 _ eq_refl).
  vm_compute. discriminate.
Defined.

Section Signals.

Variable DEBUG : bool.
Variable clock : Z -> Z -> tm.
Variable handler_line : Z.

Lemma loop_signalled_stopped (deliveries : list (option Z)) (counter : Z) :
  loop_signalled DEBUG clock (configured_logger DEBUG) handler_line
    deliveries false counter = Some ([EvReadFlag false], counter).
Proof. destruct deliveries; reflexivity. Qed.

Lemma loop_signalled_runs (k : nat) (signum : Z) (later : list (option Z)) :
  forall counter,
    0 <= counter -> counter + Z.of_nat k < INT_MAX ->
    loop_signalled DEBUG clock (configured_logger DEBUG) handler_line
      (repeat None k ++ Some signum :: later) true counter
    = Some
        (flat_map (iteration DEBUG clock) (counters counter k) ++
         iteration DEBUG clock (counter + Z.of_nat k) ++
         fst (signalHandler (configured_logger DEBUG)
                (clock handler_line (counter + Z.of_nat k + 1))
                handler_line signum) ++
         [EvReadFlag false],
         counter + Z.of_nat k + 1).
Proof.
  induction k as [|k IH]; intros counter H0 Hmax.
  - cbn [repeat app loop_signalled counters flat_map].
    assert (E : (INT_MAX <=? counter) = false) by (apply Z.leb_gt; lia).
    rewrite E, MainProgramFacts.loop_body_configured by assumption.
    cbn [signalHandler fst]. rewrite loop_signalled_stopped.
    rewrite Z.add_0_r. unfold iteration.
    cbn [app]. rewrite <- !app_assoc. reflexivity.
  - cbn [repeat app loop_signalled counters flat_map].
    assert (E : (INT_MAX <=? counter) = false) by (apply Z.leb_gt; lia).
    rewrite E, MainProgramFacts.loop_body_configured by assumption.
    rewrite IH by lia.
    replace (counter + 1 + Z.of_nat k) with (counter + Z.of_nat (S k)) by lia.
    unfold iteration at 3. cbn [app]. rewrite <- !app_assoc. reflexivity.
Qed.

End Signals.

(** X10: a signal delivered while iteration [k] (from 0) sleeps ends the
    loop at the next read of the flag, after [k + 1] iterations: the handler
    clears the flag whatever the signal number, its warning names the
    signal (SIGINT for 2, SIGTERM for 15, UNKNOWN otherwise) and is written
    in debug and release builds alike, and no further iteration runs. *)
Theorem signal_ends_loop_after_iteration
    (DEBUG : bool) (clock : Z -> Z -> tm) (handler_line : Z) (k : nat)
    (signum : Z) (later : list (option Z)) :
  Z.of_nat k < INT_MAX ->
  let warning :=
    fst (signalHandler (configured_logger DEBUG)
           (clock handler_line (Z.of_nat k + 1)) handler_line signum) in
  loop_signalled DEBUG clock (configured_logger DEBUG) handler_line
    (repeat None k ++ Some signum :: later) true 0
  = Some (flat_map (iteration DEBUG clock) (counters 0 (S k)) ++
          warning ++ [EvReadFlag false],
          Z.of_nat k + 1) /\
  written stdout warning =
    (record_line (getTimestamp (clock handler_line (Z.of_nat k + 1))) "WARN "
       "signalHandler" "main.cpp" handler_line
       ("Received signal " ++ fmt_d signum ++ " (" ++ signal_name signum ++
        "), shutting down...") ++ newline)%string /\
  snd (signalHandler (configured_logger DEBUG)
         (clock handler_line (Z.of_nat k + 1)) handler_line signum) = false.
Proof.
  intros Hmax. cbv zeta. split; [| split].
  - rewrite loop_signalled_runs by lia. cbn [Z.add].
    assert (Snoc : forall n from,
              counters from (S n) = counters from n ++ [from + Z.of_nat n]).
    { induction n as [|n IH]; intros from.
      - cbn. now rewrite Z.add_0_r.
      - cbn [counters] in *. rewrite IH. cbn [app].
        do 3 f_equal. lia. }
    rewrite Snoc, flat_map_app. cbn [flat_map].
    rewrite app_nil_r, <- !app_assoc. reflexivity.
  - unfold signalHandler. cbn [fst].
    destruct DEBUG;
      [ apply (LoggerFacts.log_written (configured_logger true))
      | apply (LoggerFacts.log_written (configured_logger false)) ];
      vm_compute; discriminate.
  - reflexivity.
Qed.

Lemma signal_ends_loop_after_iteration_witness :
  let clock := fun _ _ : Z => mkTm 125 11 3 13 23 56 in
  option_map snd
    (loop_signalled false clock (configured_logger false) 30
       (repeat None 3 ++ [Some 2; None; None]) true 0) = Some 4 /\
  written stdout (fst (signalHandler (configured_logger false)
                         (mkTm 125 11 3 13 23 56) 30 2))
  = ("2025-12-03 13:23:56 WARN  [signalHandler] [main.cpp:30] : Received signal 2 (SIGINT), shutting down..."
     ++ newline)%string.
Proof.
  assert (Hmax : Z.of_nat 3 < INT_MAX) by (vm_compute; reflexivity).
  pose proof (signal_ends_loop_after_iteration false
                (fun _ _ => mkTm 125 11 3 13 23 56) 30 3 2 [None; None] Hmax)
    as H.
  cbv zeta in H. destruct H as (Run & Warn & _).
  cbv zeta. split.
  - rewrite Run. reflexivity.
  - rewrite Warn. reflexivity.
Defined.

End ProgramFacts.

(** ** More on the Makefile: the files a goal leaves *)

Module MakeRunFacts.

Import Makefile MakeRun.

Local Open Scope list_scope.
















End MakeRunFacts.

(** ** More on the build test script: counts, order, machines *)

Module TestBuildMore.

Import TestBuild.

Local Open Scope list_scope.




Lemma Permutation_filter {A : Type} (f : A -> bool) (l l' : list A) :
  Permutation l l' -> Permutation (filter f l) (filter f l').
Proof.
  induction 1 as [| x l l' _ IH | x y l | l l' l'' _ IH1 _ IH2]; cbn.
  - constructor.
  - destruct (f x); [now constructor | exact IH].
  - destruct (f x), (f y); try apply Permutation_refl. constructor.
  - now apply Permutation_trans with (filter f l').
Qed.

Lemma attempted_permuted (h : host) (order order' : list string) :
  Permutation order order' ->
  Permutation (attempted h order) (attempted h order').
Proof.
  intros H. unfold attempted. do 2 constructor.
  now apply (Permutation_flat_map (arch_result h)).
Qed.

(** X15: the order in which bash enumerates the table does not matter to
    the outcome: two runs on the same machine with the keys in different
    orders end with the same counters and the same exit status, and collect
    the same failed names up to their order. *)
Theorem outcome_is_order_independent (h : host) (order order' : list string) :
  Permutation order order' ->
  PASSED (fst (test_build h order)) = PASSED (fst (test_build h order')) /\
  FAILED (fst (test_build h order)) = FAILED (fst (test_build h order')) /\
  snd (test_build h order) = snd (test_build h order') /\
  Permutation (FAILED_ARCHS (fst (test_build h order)))
    (FAILED_ARCHS (fst (test_build h order'))).
Proof.
  intros H. pose proof (attempted_permuted h _ _ H) as Att.
  pose proof (TestBuildFacts.test_build_spec h order) as (P & F & A & S & _).
  pose proof (TestBuildFacts.test_build_spec h order') as (P' & F' & A' & S' & _).
  assert (EP : PASSED (fst (test_build h order))
               = PASSED (fst (test_build h order'))).
  { rewrite P, P'. f_equal. apply Permutation_length.
    now apply Permutation_filter. }
  assert (EF : FAILED (fst (test_build h order))
               = FAILED (fst (test_build h order'))).
  { rewrite F, F'. f_equal. apply Permutation_length. unfold failures.
    now apply Permutation_map, Permutation_filter. }
  split; [exact EP |]. split; [exact EF |]. split.
  - rewrite S, S'. now rewrite EF.
  - rewrite A, A'. unfold failures.
    now apply Permutation_map, Permutation_filter.
Qed.

Lemma outcome_is_order_independent_witness :
  let h := host_of native_only in
  snd (test_build h keys) = snd (test_build h (rev keys)) /\
  Permutation (FAILED_ARCHS (fst (test_build h keys)))
    (FAILED_ARCHS (fst (test_build h (rev keys)))).
Proof.
  cbv zeta.
  destruct (outcome_is_order_independent (host_of native_only) keys (rev keys)
              (Permutation_rev keys)) as (_ & _ & St & Names).
  split; [exact St | exact Names].
Defined.

(** On a machine where make is there and compilations succeed, a table
    architecture whose compiler is found builds. *)
Lemma listed_arch_builds (m : Makefile.machine) (arch : string) :
  Makefile.installed m "make" = true ->
  (forall command, Makefile.compiles m command = true) ->
  In arch keys ->
  forallb snd (arch_result (host_of m) arch) = true.
Proof.
  intros Make Good Hin. cbn in Hin.
  repeat (destruct Hin as [<- | Hin];
          [ unfold arch_result; cbn [host_of command_v make lookup
                                     ARCH_COMPILERS String.eqb Ascii.eqb
                                     Bool.eqb];
            match goal with
            | |- context [Makefile.installed m ?c] =>
                destruct (Makefile.installed m c) eqn:Found
            end;
            [| reflexivity];
            unfold Makefile.make_succeeds; rewrite Make;
            cbn; rewrite ?Found, Good; reflexivity |]).
  contradiction.
Qed.

(** X16: on a machine where every compilation that can start succeeds,
    the script exits with status 0 exactly when make, the native compiler
    and the ARM HF compiler are installed; which of the five table
    compilers are installed makes no difference. *)
Theorem passes_iff_required_tools_installed
    (m : Makefile.machine) (order : list string) :
  (forall command, Makefile.compiles m command = true) ->
  Permutation order keys ->
  snd (test_build (host_of m) order) = 0 <->
  Makefile.installed m "make" = true /\
  Makefile.installed m "g++" = true /\
  Makefile.installed m "arm-linux-gnueabihf-g++" = true.
Proof.
  intros Good Perm.
  pose proof (TestBuildFacts.test_build_spec (host_of m) order)
    as (_ & F & _ & S & _).
  assert (Status : snd (test_build (host_of m) order) = 0 <->
                   forallb snd (attempted (host_of m) order) = true).
  { rewrite <- TestBuildFacts.failures_none, S, F.
    destruct (failures (attempted (host_of m) order)); cbn; split;
      try reflexivity; try discriminate; intros H; exfalso;
      destruct (Z.eqb_spec (Z.pos (Pos.of_succ_nat (List.length l))) 0);
      try lia; discriminate. }
  rewrite Status. unfold attempted. cbn [forallb snd].
  assert (Host : make (host_of m) [] Makefile.host_compile
                 = Makefile.installed m "make" && Makefile.installed m "g++").
  { cbn. unfold Makefile.make_succeeds. cbn. now rewrite Good, andb_true_r. }
  assert (Armhf : make (host_of m) [] Makefile.all
                  = Makefile.installed m "make" &&
                    Makefile.installed m "arm-linux-gnueabihf-g++").
  { cbn. unfold Makefile.make_succeeds. cbn. now rewrite Good, andb_true_r. }
  rewrite Host, Armhf. split.
  - intros H. apply andb_true_iff in H. destruct H as [H1 H].
    apply andb_true_iff in H. destruct H as [H2 _].
    apply andb_true_iff in H1. apply andb_true_iff in H2. tauto.
  - intros (Make & Native & Hf). rewrite Make, Native, Hf. cbn [andb].
    assert (All : forall l, (forall a, In a l -> In a keys) ->
                  forallb snd (flat_map (arch_result (host_of m)) l) = true).
    { induction l as [|a l IH]; intros Hl; cbn [flat_map];
        [reflexivity |].
      rewrite forallb_app, (listed_arch_builds m a Make Good), IH;
        [reflexivity | | ]; intros; apply Hl; cbn; auto. }
    apply All. intros a Ha. eapply Permutation_in; eassumption.
Qed.

(** A machine with make, the native compiler and the ARM HF compiler. *)
Lemma passes_iff_required_tools_installed_witness :
  let m := {| Makefile.installed := fun program =>
                String.eqb program "make" || String.eqb program "g++" ||
                String.eqb program "arm-linux-gnueabihf-g++";
              Makefile.compiles := fun _ => true |} in
  snd (test_build (host_of m) keys) = 0.
Proof.
  cbv zeta.
  apply (passes_iff_required_tools_installed
           {| Makefile.installed := fun program =>
                String.eqb program "make" || String.eqb program "g++" ||
                String.eqb program "arm-linux-gnueabihf-g++";
              Makefile.compiles := fun _ => true |} keys).
  - reflexivity.
  - apply Permutation_refl.
  - repeat split.
Defined.

End TestBuildMore.

(** ** More on the deploy script: parameters, tools, commands *)

Module DeployMore.

Import Deploy DeployArgs.

Local Open Scope list_scope.

Ltac by_parameters args :=
  destruct args
    as [|[|?c ?r] [|[|?c ?r] [|[|?c ?r] [|[|?c ?r] [|[|?c ?r] [|[|?c ?r] ?rest]]]]]].

Lemma first_missing_well_formed (args : list string) :
  first_missing args 0 6 = None <-> well_formed args = true.
Proof.
  by_parameters args; cbn; split; intros H; try discriminate H; reflexivity.
Qed.



Lemma deploy_rejected (w : world) (args : list string) :
  well_formed args = false ->
  exists message, deploy w args = ([Complain message], Exit 1).
Proof.
  by_parameters args; intros H; try discriminate H; eexists; reflexivity.
Qed.

(** X18: with the parameters given and the artifact in place, a machine
    without [sshpass] makes the script print the installation hint and
    exit with status 1 before any command is run. *)
Theorem missing_sshpass_aborts_before_remote (w : world) (args : list string) :
  well_formed args = true ->
  is_file w (artifact_path args) = true ->
  command_v w "sshpass" = false ->
  deploy w args =
    ([Echo (RED ++ "[ERROR]" ++ NC ++ " " ++
            "sshpass is not installed. Install it with: sudo apt install sshpass")%string],
     Exit 1) /\
  commands (deploy w args) = [].
Proof.
  intros W Present Missing. unfold artifact_path in Present.
  rewrite (DeployFacts.deploy_parsed w args W).
  unfold prerequisites. rewrite Present, Missing. split; reflexivity.
Qed.

Lemma missing_sshpass_aborts_before_remote_witness :
  let w := {| is_file := fun _ => true;
              command_v := fun _ => false;
              status_of := fun _ => 0 |} in
  exit_status (deploy w sample_args) = 1 /\
  commands (deploy w sample_args) = [].
Proof.
  cbv zeta.
  destruct (missing_sshpass_aborts_before_remote
              {| is_file := fun _ => true;
                 command_v := fun _ => false;
                 status_of := fun _ => 0 |} sample_args
              eq_refl eq_refl eq_refl) as (Run & None).
  split; [rewrite Run; reflexivity | exact None].
Defined.

(** The run once the parameters are parsed and the prerequisites met. *)
Lemma deploy_started (w : world) (args : list string) :
  well_formed args = true ->
  is_file w (nth 2 args "") = true ->
  command_v w "sshpass" = true ->
  deploy w args =
  remote_steps w (nth 0 args "") (nth 1 args "") (nth 2 args "")
    (nth 3 args "") (nth 4 args "") (nth 5 args "").
Proof.
  intros W Present Tool.
  rewrite (DeployFacts.deploy_parsed w args W).
  now rewrite DeployFacts.prerequisites_met, DeployFacts.bind_ret_l.
Qed.

Ltac by_statuses w args :=
  unfold remote_steps, run, run_or_true, log_info, echo, bind, commands,
    exit_status;
  destruct (Z.eqb_spec
              (status_of w (upload_command (nth 0 args "") (nth 2 args "")
                              (nth 3 args "") (nth 4 args "") (nth 5 args ""))) 0);
  destruct (Z.eqb_spec
              (status_of w (chmod_command (nth 0 args "") (nth 2 args "")
                              (nth 3 args "") (nth 4 args "") (nth 5 args ""))) 0);
  destruct (Z.eqb_spec
              (status_of w (gdbserver_command (nth 0 args "") (nth 1 args "")
                              (nth 2 args "") (nth 3 args "") (nth 4 args "")
                              (nth 5 args ""))) 0);
  cbn [fst snd app flat_map].

(** X19: whatever the parameters and the state of the machine, every
    external command the script runs is [sshpass -p <sixth parameter>]
    followed by [ssh] or [scp], and it runs at most four of them. *)
Theorem every_command_goes_through_sshpass
    (w : world) (args : list string) :
  (forall argv, In argv (commands (deploy w args)) ->
     firstn 3 argv = ["sshpass"; "-p"; nth 5 args ""] /\
     (nth 3 argv "" = "ssh" \/ nth 3 argv "" = "scp")) /\
  (List.length (commands (deploy w args)) <= 4)%nat.
Proof.
  destruct (well_formed args) eqn:W.
  - rewrite (DeployFacts.deploy_parsed w args W). unfold prerequisites.
    destruct (is_file w (nth 2 args "")); cbn [negb];
      [| split; [intros argv [] | cbn; lia]].
    destruct (command_v w "sshpass"); cbn [negb];
      [| split; [intros argv [] | cbn; lia]].
    change ((ret tt;;; ret tt);;;
            remote_steps w (nth 0 args "") (nth 1 args "") (nth 2 args "")
              (nth 3 args "") (nth 4 args "") (nth 5 args ""))
      with (bind (ret tt)
              (fun _ => remote_steps w (nth 0 args "") (nth 1 args "")
                          (nth 2 args "") (nth 3 args "") (nth 4 args "")
                          (nth 5 args ""))).
    rewrite DeployFacts.bind_ret_l.
    by_statuses w args;
      (split; [| cbn; lia]);
      intros argv Hin; cbn in Hin;
      repeat (destruct Hin as [<- | Hin]; [split; cbn; auto |]);
      contradiction.
  - destruct (deploy_rejected w args W) as [message ->].
    split; [intros argv [] | cbn; lia].
Qed.

(** X20: the script exits with status 0 exactly when all six parameters
    are given, the artifact is a regular file, [sshpass] is installed and
    the upload, the chmod and the gdbserver session all end with status 0;
    the status of the cleanup command plays no part. *)
Theorem succeeds_iff_every_required_step_succeeds
    (w : world) (args : list string) :
  exit_status (deploy w args) = 0 <->
  well_formed args = true /\
  is_file w (artifact_path args) = true /\
  command_v w "sshpass" = true /\
  status_of w (upload_command (nth 0 args "") (nth 2 args "") (nth 3 args "")
                 (nth 4 args "") (nth 5 args "")) = 0 /\
  status_of w (chmod_command (nth 0 args "") (nth 2 args "") (nth 3 args "")
                 (nth 4 args "") (nth 5 args "")) = 0 /\
  status_of w (gdbserver_command (nth 0 args "") (nth 1 args "")
                 (nth 2 args "") (nth 3 args "") (nth 4 args "")
                 (nth 5 args "")) = 0.
Proof.
  unfold artifact_path.
  destruct (well_formed args) eqn:W.
  - destruct (is_file w (nth 2 args "")) eqn:Present.
    + destruct (command_v w "sshpass") eqn:Tool.
      * rewrite (deploy_started w args W Present Tool).
        by_statuses w args; split;
          try (intros H; repeat split; (assumption || congruence));
          try (intros (_ & _ & _ & U & C & G); congruence);
          try reflexivity.
      * rewrite (DeployFacts.deploy_parsed w args W).
        unfold prerequisites. rewrite Present, Tool.
        split; [discriminate | intros (_ & _ & H & _); discriminate H].
    + rewrite (DeployFacts.deploy_parsed w args W).
      rewrite DeployFacts.prerequisites_missing_artifact by assumption.
      split; [discriminate | intros (_ & H & _); discriminate H].
  - destruct (deploy_rejected w args W) as [message ->].
    split; [discriminate | intros (H & _); discriminate H].
Qed.

Example succeeds_with_failed_cleanup :
  exit_status (deploy cleanup_fails sample_args) = 0.
Proof. reflexivity. Qed.

End DeployMore.
